(* Verification model of the season activity planner (src/app.py).

   The Flask application is embedded as a state-and-exception monad over
   a world made of the persisted store (the SQLite tables), the flash
   messages of the cookie session and the logged-in identity.  Python
   strings are sequences of Unicode code points, written here as [list Z];
   the Japanese labels of the source are spelled out by their code points,
   with the text in a comment next to each. *)

From Stdlib Require Import ZArith List String Ascii Bool Lia.
Import ListNotations.
Open Scope Z_scope.

(** * Python strings *)

(** A Python [str]: its list of code points. *)
Definition pystr := list Z.

Fixpoint str_eqb (s t : pystr) : bool :=
  match s, t with
  | [], [] => true
  | c :: s', d :: t' => Z.eqb c d && str_eqb s' t'
  | _, _ => false
  end.

Lemma str_eqb_eq : forall s t, str_eqb s t = true <-> s = t.
Proof.
  induction s as [|c s IH]; destruct t as [|d t]; simpl;
    try (split; congruence).
  rewrite andb_true_iff, Z.eqb_eq, IH. split.
  - intros [-> ->]; reflexivity.
  - intros H; injection H; auto.
Qed.

Lemma str_eqb_refl : forall s, str_eqb s s = true.
Proof. intros s; apply str_eqb_eq; reflexivity. Qed.

(** An ASCII literal of the source as a Python string. *)
Definition ascii_str (s : string) : pystr :=
  map (fun c => Z.of_nat (nat_of_ascii c)) (list_ascii_of_string s).

(** * The season table [SEASON_DATA] *)

Definition FUYU : pystr := [20908].  (* 冬 winter *)
Definition HARU : pystr := [26149].  (* 春 spring *)
Definition NATSU : pystr := [22799]. (* 夏 summer *)
Definition AKI : pystr := [31179].   (* 秋 autumn *)

Record SeasonInfo := mkSeasonInfo {
  si_name : pystr;
  si_color : string
}.

Definition winter_info := mkSeasonInfo FUYU "#87CEEB".
Definition spring_info := mkSeasonInfo HARU "#90EE90".
Definition summer_info := mkSeasonInfo NATSU "#FFB6C1".
Definition autumn_info := mkSeasonInfo AKI "#DDA0DD".

(** The dict literal [SEASON_DATA]: a lookup that is [None] where
    Python raises [KeyError].  (Its [activities] lists are always empty
    and never read.) *)
Definition SEASON_DATA (m : Z) : option SeasonInfo :=
  if Z.eqb m 1 then Some winter_info
  else if Z.eqb m 2 then Some winter_info
  else if Z.eqb m 3 then Some spring_info
  else if Z.eqb m 4 then Some spring_info
  else if Z.eqb m 5 then Some spring_info
  else if Z.eqb m 6 then Some summer_info
  else if Z.eqb m 7 then Some summer_info
  else if Z.eqb m 8 then Some summer_info
  else if Z.eqb m 9 then Some autumn_info
  else if Z.eqb m 10 then Some autumn_info
  else if Z.eqb m 11 then Some autumn_info
  else if Z.eqb m 12 then Some winter_info
  else None.

(** * [validate_password] *)

Definition is_ascii_alnum (c : Z) : bool :=
  ((65 <=? c) && (c <=? 90)) || ((97 <=? c) && (c <=? 122))
  || ((48 <=? c) && (c <=? 57)).

(** Python's [$] without MULTILINE: it matches at the end of the string
    or just before a newline that ends the string. *)
Definition dollar_matches (rest : pystr) : bool :=
  match rest with
  | [] => true
  | [10] => true
  | _ => false
  end.

(** [re.match(r'^[a-zA-Z0-9]+$', s)]: after [^], the class repeated
    one or more times, then [$]; a match exists when some number [k >= 1]
    of leading alphanumerics is followed by a position where [$] holds. *)
Fixpoint alnum_plus_dollar (s : pystr) (seen_one : bool) : bool :=
  (seen_one && dollar_matches s) ||
  match s with
  | [] => false
  | c :: r => is_ascii_alnum c && alnum_plus_dollar r true
  end.

Definition re_match_alnum (s : pystr) : bool := alnum_plus_dollar s false.

Definition MSG_PW_EMPTY : pystr :=
  (* パスワードを入力してください。 *)
  [12497; 12473; 12527; 12540; 12489; 12434; 20837; 21147; 12375; 12390;
   12367; 12384; 12373; 12356; 12290].
Definition MSG_PW_SHORT : pystr :=
  (* パスワードは8文字以上で入力してください。 *)
  [12497; 12473; 12527; 12540; 12489; 12399; 56; 25991; 23383; 20197;
   19978; 12391; 20837; 21147; 12375; 12390; 12367; 12384; 12373; 12356;
   12290].
Definition MSG_PW_CHARS : pystr :=
  (* パスワードは半角英数のみで入力してください。 *)
  [12497; 12473; 12527; 12540; 12489; 12399; 21322; 35282; 33521; 25968;
   12398; 12415; 12391; 20837; 21147; 12375; 12390; 12367; 12384; 12373;
   12356; 12290].

Definition validate_password (password : pystr) : bool * pystr :=
  match password with
  | [] => (false, MSG_PW_EMPTY)
  | _ =>
      if Nat.ltb (List.length password) 8 then (false, MSG_PW_SHORT)
      else if negb (re_match_alnum password) then (false, MSG_PW_CHARS)
      else (true, [])
  end.

(** * Data model: the [User] and [SeasonActivity] tables *)

(** [generate_password_hash(pw)]: the salted hash is opaque to the
    application, which only ever hands it back to [check_password_hash]. *)
Inductive PwHash := Hashed (password : pystr).

Definition check_password_hash (h : PwHash) (password : pystr) : bool :=
  match h with Hashed p => str_eqb p password end.

Record User := mkUser {
  user_id : Z;
  username : pystr;
  email : pystr;
  password_hash : PwHash
}.

Record SeasonActivity := mkActivity {
  act_id : Z;
  act_user_id : Z;
  month : Z;
  season : pystr;
  activity_type : pystr;
  category : pystr;
  title : pystr;
  description : pystr
}.

(** The committed content of the two SQLite tables, in rowid order. *)
Record Store := mkStore {
  users : list User;
  activities : list SeasonActivity
}.

(** SQLite's [INTEGER PRIMARY KEY] without AUTOINCREMENT: a new row gets
    one more than the largest rowid in the table. *)
Definition next_rowid (ids : list Z) : Z := fold_right Z.max 0 ids + 1.

Definition find_user_by_id (uid : Z) (st : Store) : option User :=
  find (fun u => Z.eqb (user_id u) uid) (users st).

(** [User.query.filter_by(username=...).first()] *)
Definition find_user_by_name (name : pystr) (st : Store) : option User :=
  find (fun u => str_eqb (username u) name) (users st).

(** [User.query.filter_by(email=...).first()] *)
Definition find_user_by_email (mail : pystr) (st : Store) : option User :=
  find (fun u => str_eqb (email u) mail) (users st).

(** [SeasonActivity.query.filter_by(month=m, user_id=uid).all()] *)
Definition filter_activities (m uid : Z) (st : Store) : list SeasonActivity :=
  filter (fun a => Z.eqb (month a) m && Z.eqb (act_user_id a) uid)
    (activities st).

(** [SeasonActivity.query.filter_by(id=aid, user_id=uid).first()] *)
Definition find_owned (aid uid : Z) (st : Store) : option SeasonActivity :=
  find (fun a => Z.eqb (act_id a) aid && Z.eqb (act_user_id a) uid)
    (activities st).

Definition find_activity (aid : Z) (st : Store) : option SeasonActivity :=
  find (fun a => Z.eqb (act_id a) aid) (activities st).

(** The row written by committing a new [User]. *)
Definition insert_user (name mail : pystr) (h : PwHash) (st : Store) : Store :=
  mkStore (users st ++ [mkUser (next_rowid (map user_id (users st))) name mail h])
    (activities st).

(** The row written by committing a new [SeasonActivity]. *)
Definition insert_activity (uid m : Z) (sn ty cat ti de : pystr) (st : Store)
  : Store :=
  mkStore (users st)
    (activities st ++
       [mkActivity (next_rowid (map act_id (activities st))) uid m sn ty cat ti de]).

(** The UPDATE written by committing a modified activity. *)
Definition replace_activity (a : SeasonActivity) (st : Store) : Store :=
  mkStore (users st)
    (map (fun b => if Z.eqb (act_id b) (act_id a) then a else b) (activities st)).

(** The DELETE written by committing [db.session.delete(activity)]. *)
Definition remove_activity (aid : Z) (st : Store) : Store :=
  mkStore (users st) (filter (fun b => negb (Z.eqb (act_id b) aid)) (activities st)).

(** * Requests, sessions and responses *)

(** The cookie session: the Flask-Login user id, if any. *)
Inductive Session := Anonymous | LoggedIn (uid : Z).

(** A flashed message and its category. *)
Definition Flash := (pystr * string)%type.

Record World := mkWorld {
  w_store : Store;
  w_flashes : list Flash;
  w_session : Session
}.

Inductive Method := GET | POST.

(** The URL rules; an [<int:...>] segment is kept as the raw path text. *)
Inductive Route :=
| RIndex | RLogin | RRegister | RLogout
| RMonth (seg : pystr)
| RAddActivity
| REditActivity (seg : pystr)
| RDeleteActivity (seg : pystr).

(** [request.form]: the first value of each key is the one [form[k]] gives. *)
Definition Form := list (pystr * pystr).

Record Request := mkRequest {
  req_method : Method;
  req_route : Route;
  req_form : Form
}.

Inductive Target :=
| ToIndex                  (* url_for('index') = "/" *)
| ToLogin                  (* url_for('login') *)
| ToLoginNext (r : Route)  (* login_url('login', next=request.url) *)
| ToMonth (m : Z).         (* url_for('month_detail', month=m) *)

Inductive Response :=
| Redirect (t : Target)
| Render (template : string)
| RenderIndex (month_counts : list (Z * nat))
| RenderMonth (m : Z) (info : SeasonInfo)
    (groups : list (pystr * list SeasonActivity))
| RenderEdit (a : SeasonActivity)
| Body (text : pystr) (status : Z)
| MethodNotAllowed.

(** Python exceptions raised on the paths of the handlers; every one is a
    subclass of [Exception] (werkzeug's [NotFound] included). *)
Inductive Exc :=
| KeyError            (* SEASON_DATA[m] with m outside the table *)
| ValueError          (* int(s) on a non-numeral *)
| BadRequestKeyError  (* request.form[k] with k absent *)
| HTTPNotFound        (* abort(404) from first_or_404 *)
| DBError.            (* a failed SQL statement or commit *)

Inductive Result (A : Type) := Ok (a : A) | Raise (e : Exc).
Arguments Ok {A} a.
Arguments Raise {A} e.

(** * The request monad: state of the world and Python exceptions *)

Definition M (A : Type) := World -> Result A * World.

Definition ret {A} (a : A) : M A := fun w => (Ok a, w).
Definition raise {A} (e : Exc) : M A := fun w => (Raise e, w).
Definition bind {A B} (m : M A) (k : A -> M B) : M B :=
  fun w => match m w with
           | (Ok a, w') => k a w'
           | (Raise e, w') => (Raise e, w')
           end.

Notation "x <- m ;; k" := (bind m (fun x => k))
  (at level 61, m at next level, right associativity).

(** [try: body except Exception: handler]; effects of the body before the
    exception (a commit, a flash) stay. *)
Definition try_except {A} (body : M A) (handler : Exc -> M A) : M A :=
  fun w => match body w with
           | (Ok a, w') => (Ok a, w')
           | (Raise e, w') => handler e w'
           end.

Definition flash (msg : pystr) (cat : string) : M unit :=
  fun w => (Ok tt, mkWorld (w_store w) (w_flashes w ++ [(msg, cat)]) (w_session w)).

(** [current_user]: Flask-Login's [load_user] on the session's id. *)
Definition current_user : M (option User) :=
  fun w => match w_session w with
           | Anonymous => (Ok None, w)
           | LoggedIn uid => (Ok (find_user_by_id uid (w_store w)), w)
           end.

Definition login_user (u : User) : M unit :=
  fun w => (Ok tt, mkWorld (w_store w) (w_flashes w) (LoggedIn (user_id u))).

Definition logout_user : M unit :=
  fun w => (Ok tt, mkWorld (w_store w) (w_flashes w) Anonymous).

Definition form_lookup (f : Form) (k : pystr) : option pystr :=
  option_map snd (find (fun p => str_eqb (fst p) k) f).

(** [request.form[k]] *)
Definition form_get (f : Form) (k : string) : M pystr :=
  match form_lookup f (ascii_str k) with
  | Some v => ret v
  | None => raise BadRequestKeyError
  end.

(** [SEASON_DATA[m]] *)
Definition season_lookup (m : Z) : M SeasonInfo :=
  match SEASON_DATA m with
  | Some i => ret i
  | None => raise KeyError
  end.

(** * [int()] on form text and the [<int:...>] URL converter *)

Definition is_digit (c : Z) : bool := (48 <=? c) && (c <=? 57).
Definition is_space (c : Z) : bool := (c =? 32) || ((9 <=? c) && (c <=? 13)).

Fixpoint drop_space (s : pystr) : pystr :=
  match s with
  | c :: r => if is_space c then drop_space r else s
  | [] => []
  end.

Definition strip (s : pystr) : pystr := rev (drop_space (rev (drop_space s))).

Fixpoint digits_value (acc : Z) (s : pystr) : option Z :=
  match s with
  | [] => Some acc
  | c :: r => if is_digit c then digits_value (acc * 10 + (c - 48)) r else None
  end.

Definition unsigned_numeral (s : pystr) : option Z :=
  match s with
  | [] => None
  | _ => digits_value 0 s
  end.

(** [int(s)]: surrounding whitespace, an optional sign and decimal digits
    (the ASCII numerals; Python's underscores and non-ASCII digits are not
    modelled). *)
Definition py_int (s : pystr) : option Z :=
  match strip s with
  | [] => None
  | c :: r =>
      if c =? 45 then option_map Z.opp (unsigned_numeral r)
      else if c =? 43 then unsigned_numeral r
      else unsigned_numeral (c :: r)
  end.

Definition int_of (s : pystr) : M Z :=
  match py_int s with
  | Some z => ret z
  | None => raise ValueError
  end.

(** werkzeug's [IntegerConverter]: the segment must match [\d+] (no sign),
    otherwise no rule matches the path. *)
Definition url_int (seg : pystr) : option Z := unsigned_numeral seg.

(** * Messages of the handlers *)

Definition MSG_ERROR : pystr :=
  (* エラーが発生しました *)
  [12456; 12521; 12540; 12364; 30330; 29983; 12375; 12414; 12375; 12383].
Definition MSG_LOGIN_ERROR : pystr :=
  (* ログインエラーが発生しました *)
  [12525; 12464; 12452; 12531; 12456; 12521; 12540; 12364; 30330; 29983;
   12375; 12414; 12375; 12383].
Definition MSG_REGISTER_ERROR : pystr :=
  (* 登録エラーが発生しました *)
  [30331; 37682; 12456; 12521; 12540; 12364; 30330; 29983; 12375; 12414;
   12375; 12383].
Definition MSG_SERVER_ERROR : pystr :=
  (* サーバーエラーが発生しました。しばらく時間をおいて再度お試しください。 *)
  [12469; 12540; 12496; 12540; 12456; 12521; 12540; 12364; 30330; 29983;
   12375; 12414; 12375; 12383; 12290; 12375; 12400; 12425; 12367; 26178;
   38291; 12434; 12362; 12356; 12390; 20877; 24230; 12362; 35430; 12375;
   12367; 12384; 12373; 12356; 12290].
Definition MSG_NOT_FOUND : pystr :=
  (* ページが見つかりません。 *)
  [12506; 12540; 12472; 12364; 35211; 12388; 12363; 12426; 12414; 12379;
   12435; 12290].
(** [login_manager.login_message] *)
Definition login_message : pystr :=
  (* このページにアクセスするにはログインが必要です。 *)
  [12371; 12398; 12506; 12540; 12472; 12395; 12450; 12463; 12475; 12473;
   12377; 12427; 12395; 12399; 12525; 12464; 12452; 12531; 12364; 24517;
   35201; 12391; 12377; 12290].
Definition login_message_category : string := "info".
Definition MSG_DUP_USERNAME : pystr :=
  (* このユーザー名は既に使用されています。 *)
  [12371; 12398; 12518; 12540; 12470; 12540; 21517; 12399; 26082; 12395;
   20351; 29992; 12373; 12428; 12390; 12356; 12414; 12377; 12290].
Definition MSG_DUP_EMAIL : pystr :=
  (* このメールアドレスは既に使用されています。 *)
  [12371; 12398; 12513; 12540; 12523; 12450; 12489; 12524; 12473; 12399;
   26082; 12395; 20351; 29992; 12373; 12428; 12390; 12356; 12414; 12377;
   12290].
Definition MSG_MISMATCH : pystr :=
  (* パスワードが一致しません。 *)
  [12497; 12473; 12527; 12540; 12489; 12364; 19968; 33268; 12375; 12414;
   12379; 12435; 12290].
Definition MSG_LOGGED_IN : pystr :=
  (* ログインしました！ *)
  [12525; 12464; 12452; 12531; 12375; 12414; 12375; 12383; 65281].
Definition MSG_BAD_LOGIN : pystr :=
  (* ユーザー名またはパスワードが正しくありません。 *)
  [12518; 12540; 12470; 12540; 21517; 12414; 12383; 12399; 12497; 12473;
   12527; 12540; 12489; 12364; 27491; 12375; 12367; 12354; 12426; 12414;
   12379; 12435; 12290].
Definition MSG_LOGGED_OUT : pystr :=
  (* ログアウトしました。 *)
  [12525; 12464; 12450; 12454; 12488; 12375; 12414; 12375; 12383; 12290].
Definition MSG_ADDED : pystr :=
  (* アイデアが追加されました！ *)
  [12450; 12452; 12487; 12450; 12364; 36861; 21152; 12373; 12428; 12414;
   12375; 12383; 65281].
Definition MSG_UPDATED : pystr :=
  (* アイデアが更新されました！ *)
  [12450; 12452; 12487; 12450; 12364; 26356; 26032; 12373; 12428; 12414;
   12375; 12383; 65281].
Definition MSG_DELETED : pystr :=
  (* アイデアが削除されました *)
  [12450; 12452; 12487; 12450; 12364; 21066; 38500; 12373; 12428; 12414;
   12375; 12383].
(** The welcome message [f'{username}さん、ようこそ！アカウントが作成されました。'] *)
Definition msg_welcome (name : pystr) : pystr :=
  name ++ [12373; 12435; 12289; 12424; 12358; 12371; 12381; 65281; 12450;
           12459; 12454; 12531; 12488; 12364; 20316; 25104; 12373; 12428;
           12414; 12375; 12383; 12290].

(** The four keys of [categorized_activities] in [month_detail]. *)
Definition HITORI : pystr := [19968; 20154].                (* 一人 alone *)
Definition TOMODACHI : pystr := [21451; 36948].             (* 友達 friends *)
Definition KAZOKU : pystr := [23478; 26063].                (* 家族 family *)
Definition OTOSHIYORI : pystr := [12362; 24180; 23492; 12426]. (* お年寄り elderly *)

Definition initial_groups : list (pystr * list SeasonActivity) :=
  [(HITORI, []); (TOMODACHI, []); (KAZOKU, []); (OTOSHIYORI, [])].

(** [activity.activity_type in categorized_activities] *)
Definition has_group (k : pystr) (gs : list (pystr * list SeasonActivity)) : bool :=
  existsb (fun p => str_eqb (fst p) k) gs.

(** [categorized_activities[k].append(a)] *)
Fixpoint group_append (k : pystr) (a : SeasonActivity)
  (gs : list (pystr * list SeasonActivity)) : list (pystr * list SeasonActivity) :=
  match gs with
  | [] => []
  | (k', l) :: r =>
      if str_eqb k' k then (k', l ++ [a]) :: r else (k', l) :: group_append k a r
  end.

(** The [for activity in activities] loop of [month_detail]. *)
Fixpoint categorize_from (gs : list (pystr * list SeasonActivity))
  (acts : list SeasonActivity) : list (pystr * list SeasonActivity) :=
  match acts with
  | [] => gs
  | a :: r =>
      categorize_from
        (if has_group (activity_type a) gs then group_append (activity_type a) a gs
         else gs) r
  end.

Definition categorize (acts : list SeasonActivity) :=
  categorize_from initial_groups acts.

Fixpoint range_from (start : Z) (n : nat) : list Z :=
  match n with
  | O => []
  | S n' => start :: range_from (start + 1) n'
  end.

(** [range(1, 13)] *)
Definition months_1_12 : list Z := range_from 1 12.

(** * The route handlers *)

(** The SQL statements a handler issues; each may fail at the database. *)
Inductive DbOp :=
| OpQuery    (* a SELECT *)
| OpCommit   (* db.session.commit() *)
| OpReload.  (* the SELECT that refreshes an instance expired by a commit *)

Section Handlers.

(** Which statements the database refuses in this request. *)
Variable dbfail : DbOp -> bool.

Definition db_access (op : DbOp) : M unit :=
  fun w => if dbfail op then (Raise DBError, w) else (Ok tt, w).

Definition query {A} (f : Store -> A) : M A :=
  _ <- db_access OpQuery ;;
  (fun w => (Ok (f (w_store w)), w)).

(** [db.session.commit()]: the pending writes reach the tables as one
    SQLite transaction, or not at all when it fails. *)
Definition commit (f : Store -> Store) : M unit :=
  fun w => if dbfail OpCommit then (Raise DBError, w)
           else (Ok tt, mkWorld (f (w_store w)) (w_flashes w) (w_session w)).

(** Reading [activity.month] after the commit expired the instance. *)
Definition reload_month (aid : Z) : M Z :=
  _ <- db_access OpReload ;;
  (fun w => match find_activity aid (w_store w) with
            | Some a => (Ok (month a), w)
            | None => (Raise DBError, w)
            end).

Definition server_error : M Response := ret (Body MSG_ERROR 500).

(** [@login_required]: the anonymous request is sent to the login view
    with the login message flashed; the view gets [current_user]. *)
Definition login_required (r : Route) (view : User -> M Response) : M Response :=
  cu <- current_user ;;
  match cu with
  | None => _ <- flash login_message login_message_category ;;
            ret (Redirect (ToLoginNext r))
  | Some u => view u
  end.

(** [index()] (no [@login_required]: it checks [is_authenticated] itself). *)
Fixpoint count_months (uid : Z) (ms : list Z) : M (list (Z * nat)) :=
  match ms with
  | [] => ret []
  | m :: r =>
      c <- query (fun st => List.length (filter_activities m uid st)) ;;
      rest <- count_months uid r ;;
      ret ((m, c) :: rest)
  end.

Definition index : M Response :=
  try_except
    (cu <- current_user ;;
     match cu with
     | None => ret (Redirect ToLogin)
     | Some u =>
         month_counts <- count_months (user_id u) months_1_12 ;;
         ret (RenderIndex month_counts)
     end)
    (fun _ => server_error).

Definition login (meth : Method) (form : Form) : M Response :=
  try_except
    (cu <- current_user ;;
     match cu with
     | Some _ => ret (Redirect ToIndex)
     | None =>
         match meth with
         | POST =>
             name <- form_get form "username" ;;
             password <- form_get form "password" ;;
             found <- query (find_user_by_name name) ;;
             match found with
             | Some u =>
                 if check_password_hash (password_hash u) password then
                   _ <- login_user u ;;
                   _ <- flash MSG_LOGGED_IN "success" ;;
                   ret (Redirect ToIndex)
                 else
                   _ <- flash MSG_BAD_LOGIN "error" ;; ret (Render "login.html")
             | None =>
                 _ <- flash MSG_BAD_LOGIN "error" ;; ret (Render "login.html")
             end
         | GET => ret (Render "login.html")
         end
     end)
    (fun _ => ret (Body MSG_LOGIN_ERROR 500)).

(** The new user as committed: its id is assigned by the INSERT. *)
Definition create_user (name mail : pystr) (h : PwHash) : M User :=
  _ <- commit (insert_user name mail h) ;;
  (fun w => match find_user_by_name name (w_store w) with
            | Some u => (Ok u, w)
            | None => (Raise DBError, w)
            end).

Definition register (meth : Method) (form : Form) : M Response :=
  try_except
    (cu <- current_user ;;
     match cu with
     | Some _ => ret (Redirect ToIndex)
     | None =>
         match meth with
         | POST =>
             name <- form_get form "username" ;;
             mail <- form_get form "email" ;;
             password <- form_get form "password" ;;
             confirm <- form_get form "confirm_password" ;;
             by_name <- query (find_user_by_name name) ;;
             match by_name with
             | Some _ =>
                 _ <- flash MSG_DUP_USERNAME "error" ;; ret (Render "register.html")
             | None =>
                 by_mail <- query (find_user_by_email mail) ;;
                 match by_mail with
                 | Some _ =>
                     _ <- flash MSG_DUP_EMAIL "error" ;; ret (Render "register.html")
                 | None =>
                     let (is_valid, error_message) := validate_password password in
                     if negb is_valid then
                       _ <- flash error_message "error" ;; ret (Render "register.html")
                     else if negb (str_eqb password confirm) then
                       _ <- flash MSG_MISMATCH "error" ;; ret (Render "register.html")
                     else
                       u <- create_user name mail (Hashed password) ;;
                       _ <- login_user u ;;
                       _ <- flash (msg_welcome name) "success" ;;
                       ret (Redirect ToIndex)
                 end
             end
         | GET => ret (Render "register.html")
         end
     end)
    (fun _ => ret (Body MSG_REGISTER_ERROR 500)).

(** [logout()], under [@login_required]. *)
Definition logout (_ : User) : M Response :=
  try_except
    (_ <- logout_user ;;
     _ <- flash MSG_LOGGED_OUT "info" ;;
     ret (Redirect ToLogin))
    (fun _ => ret (Redirect ToLogin)).

(** [month_detail(month)], under [@login_required]. *)
Definition month_detail (m : Z) (u : User) : M Response :=
  try_except
    (if (m <? 1) || (m >? 12) then ret (Redirect ToIndex)
     else
       acts <- query (filter_activities m (user_id u)) ;;
       season_info <- season_lookup m ;;
       ret (RenderMonth m season_info (categorize acts)))
    (fun _ => server_error).

(** [add_activity()], under [@login_required]. *)
Definition add_activity (meth : Method) (form : Form) (u : User) : M Response :=
  try_except
    (match meth with
     | POST =>
         ms <- form_get form "month" ;;
         m <- int_of ms ;;
         ty <- form_get form "activity_type" ;;
         cat <- form_get form "category" ;;
         ti <- form_get form "title" ;;
         de <- form_get form "description" ;;
         info <- season_lookup m ;;
         _ <- commit (insert_activity (user_id u) m (si_name info) ty cat ti de) ;;
         _ <- flash MSG_ADDED "success" ;;
         ret (Redirect (ToMonth m))
     | GET => ret (Render "add_activity.html")
     end)
    (fun _ => server_error).

(** [.first_or_404()]: [abort(404)] raises werkzeug's [NotFound]. *)
Definition first_or_404 (found : option SeasonActivity) : M SeasonActivity :=
  match found with
  | Some a => ret a
  | None => raise HTTPNotFound
  end.

(** [edit_activity(activity_id)], under [@login_required].  The
    assignments to [activity] are pending in the ORM session until the
    commit writes them. *)
Definition edit_activity (aid : Z) (meth : Method) (form : Form) (u : User)
  : M Response :=
  try_except
    (found <- query (find_owned aid (user_id u)) ;;
     activity <- first_or_404 found ;;
     match meth with
     | POST =>
         ms <- form_get form "month" ;;
         m <- int_of ms ;;
         ty <- form_get form "activity_type" ;;
         cat <- form_get form "category" ;;
         ti <- form_get form "title" ;;
         de <- form_get form "description" ;;
         info <- season_lookup m ;;
         _ <- commit (replace_activity
                        (mkActivity (act_id activity) (act_user_id activity) m
                           (si_name info) ty cat ti de)) ;;
         _ <- flash MSG_UPDATED "success" ;;
         m' <- reload_month (act_id activity) ;;
         ret (Redirect (ToMonth m'))
     | GET => ret (RenderEdit activity)
     end)
    (fun _ => server_error).

(** [delete_activity(activity_id)], under [@login_required]. *)
Definition delete_activity (aid : Z) (u : User) : M Response :=
  try_except
    (found <- query (find_owned aid (user_id u)) ;;
     activity <- first_or_404 found ;;
     let m := month activity in
     _ <- commit (remove_activity (act_id activity)) ;;
     _ <- flash MSG_DELETED "info" ;;
     ret (Redirect (ToMonth m)))
    (fun _ => server_error).

(** [not_found_error]: the [@app.errorhandler(404)] page. *)
Definition not_found_error : M Response := ret (Body MSG_NOT_FOUND 404).

(** URL matching, then the method check, then the view. *)
Definition handle (req : Request) : M Response :=
  let meth := req_method req in
  let form := req_form req in
  let r := req_route req in
  match r with
  | RIndex => match meth with GET => index | POST => ret MethodNotAllowed end
  | RLogin => login meth form
  | RRegister => register meth form
  | RLogout =>
      match meth with GET => login_required r logout | POST => ret MethodNotAllowed end
  | RMonth seg =>
      match url_int seg with
      | None => not_found_error
      | Some m =>
          match meth with
          | GET => login_required r (month_detail m)
          | POST => ret MethodNotAllowed
          end
      end
  | RAddActivity => login_required r (add_activity meth form)
  | REditActivity seg =>
      match url_int seg with
      | None => not_found_error
      | Some aid => login_required r (edit_activity aid meth form)
      end
  | RDeleteActivity seg =>
      match url_int seg with
      | None => not_found_error
      | Some aid =>
          match meth with
          | GET => login_required r (delete_activity aid)
          | POST => ret MethodNotAllowed
          end
      end
  end.

(** One request against the world: the response and the world after it.
    An exception escaping a view would reach the Flask error handlers. *)
Definition run_request (req : Request) (w : World) : Response * World :=
  match handle req w with
  | (Ok resp, w') => (resp, w')
  | (Raise HTTPNotFound, w') => (Body MSG_NOT_FOUND 404, w')
  | (Raise _, w') => (Body MSG_SERVER_ERROR 500, w')
  end.

End Handlers.

(** A database that refuses nothing. *)
Definition no_fail : DbOp -> bool := fun _ => false.

(** * Basic facts *)

Lemma digits_value_nonneg : forall s acc z,
  0 <= acc -> digits_value acc s = Some z -> 0 <= z.
Proof.
  induction s as [|c s IH]; simpl; intros acc z Hacc H.
  - injection H as <-; exact Hacc.
  - destruct (is_digit c) eqn:Hd; [| discriminate].
    unfold is_digit in Hd. apply andb_true_iff in Hd as [H1 H2].
    apply Z.leb_le in H1. eapply IH; [| exact H]; lia.
Qed.

Lemma url_int_nonneg : forall seg m, url_int seg = Some m -> 0 <= m.
Proof.
  unfold url_int, unsigned_numeral. intros seg m H.
  destruct seg; [discriminate |]. exact (digits_value_nonneg _ 0 m ltac:(lia) H).
Qed.

(** * Concrete worlds used by the witnesses *)

Definition alice : User :=
  mkUser 1 (ascii_str "alice") (ascii_str "a@x.com") (Hashed (ascii_str "alice123")).
Definition bob : User :=
  mkUser 2 (ascii_str "bob") (ascii_str "b@x.com") (Hashed (ascii_str "bob12345")).

Definition bob_picnic : SeasonActivity :=
  mkActivity 1 2 3 HARU KAZOKU (ascii_str "outing") (ascii_str "Picnic") [].

Definition two_users : Store := mkStore [alice; bob] [bob_picnic].

(** Alice is logged in; the store also holds Bob and his activity 1. *)
Definition w_alice : World := mkWorld two_users [] (LoggedIn 1).

Definition w_anon : World := mkWorld two_users [] Anonymous.

Definition activity_fields (m ty cat ti de : pystr) : Form :=
  [(ascii_str "month", m); (ascii_str "activity_type", ty);
   (ascii_str "category", cat); (ascii_str "title", ti);
   (ascii_str "description", de)].

Definition activity_form (m ty : pystr) : Form :=
  activity_fields m ty (ascii_str "outing") (ascii_str "Walk") [].

Definition register_form (name mail pw confirm : pystr) : Form :=
  [(ascii_str "username", name); (ascii_str "email", mail);
   (ascii_str "password", pw); (ascii_str "confirm_password", confirm)].

(** * The spec's season table, as the spec words it *)

Definition spec_season (m : Z) : pystr :=
  if (m =? 1) || (m =? 2) || (m =? 12) then FUYU
  else if (3 <=? m) && (m <=? 5) then HARU
  else if (6 <=? m) && (m <=? 8) then NATSU
  else AKI.

(** * Theorems *)

(** C6: for every month m in 1..12 the table [SEASON_DATA] has an entry
    whose name is the spec's label (winter for 1, 2, 12; spring for 3-5;
    summer for 6-8; autumn for 9-11); the four labels are distinct; in
    particular month 1 is winter and month 6 is summer. *)
Theorem season_table_matches_spec (m : Z) (Hm : 1 <= m <= 12) :
  option_map si_name (SEASON_DATA m) = Some (spec_season m) /\
  In (spec_season m) [FUYU; HARU; NATSU; AKI] /\
  NoDup [FUYU; HARU; NATSU; AKI] /\
  option_map si_name (SEASON_DATA 1) = Some FUYU /\
  option_map si_name (SEASON_DATA 6) = Some NATSU.
Proof.
  split; [| split; [| split]].
  - assert (m = 1 \/ m = 2 \/ m = 3 \/ m = 4 \/ m = 5 \/ m = 6 \/ m = 7 \/
            m = 8 \/ m = 9 \/ m = 10 \/ m = 11 \/ m = 12) as Hc by lia.
    repeat destruct Hc as [-> | Hc]; try (subst m); reflexivity.
  - unfold spec_season.
    destruct ((m =? 1) || (m =? 2) || (m =? 12)); [simpl; tauto |].
    destruct ((3 <=? m) && (m <=? 5)); [simpl; tauto |].
    destruct ((6 <=? m) && (m <=? 8)); simpl; tauto.
  - repeat constructor; simpl; intros H; repeat destruct H as [H | H];
      try discriminate; contradiction.
  - split; reflexivity.
Qed.

Lemma season_table_matches_spec_witness :
  1 <= 7 <= 12 /\ option_map si_name (SEASON_DATA 7) = Some (spec_season 7).
Proof.
  split; [lia |].
  exact (proj1 (season_table_matches_spec 7 ltac:(lia))).
Defined.

(** C4 (code bug): the three examples of the spec hold ("abc" rejected,
    "abcdefgh" accepted, "abc défg1" rejected), but [$] in the pattern also
    matches before a final newline, so "abcdefg\n" (seven letters and a
    newline) passes [validate_password] and registers a user. *)
Theorem validate_password_trailing_newline :
  fst (validate_password (ascii_str "abc")) = false /\
  fst (validate_password (ascii_str "abcdefgh")) = true /\
  fst (validate_password (ascii_str "abc d" ++ [233] ++ ascii_str "fg1")) = false /\
  validate_password (ascii_str "abcdefg" ++ [10]) = (true, []) /\
  is_ascii_alnum 10 = false /\
  fst (run_request no_fail
         (mkRequest POST RRegister
            (register_form (ascii_str "carol") (ascii_str "c@x.com")
               (ascii_str "abcdefg" ++ [10]) (ascii_str "abcdefg" ++ [10])))
         w_anon) = Redirect ToIndex.
Proof. vm_compute. repeat split. Qed.

(** C9 (corrected): an authenticated request for [/month/<seg>] whose
    segment the int converter reads as a month outside [1,12] (0 or at
    least 13) is redirected to [/] with nothing else done; the converter
    only reads unsigned numerals, so a negative month matches no rule. *)
Theorem month_out_of_range_redirects (fl : DbOp -> bool) (w : World) (uid : Z)
  (u : User) (seg : pystr) (m : Z) (fm : Form)
  (Hs : w_session w = LoggedIn uid)
  (Hu : find_user_by_id uid (w_store w) = Some u)
  (Hseg : url_int seg = Some m) (Hout : m < 1 \/ 12 < m) :
  run_request fl (mkRequest GET (RMonth seg) fm) w = (Redirect ToIndex, w) /\
  0 <= m.
Proof.
  split.
  - assert (Hb : (m <? 1) || (m >? 12) = true).
    { apply orb_true_iff. destruct Hout; [left | right]; lia. }
    unfold run_request, handle; cbn [req_route req_method req_form].
    rewrite Hseg. unfold login_required, current_user, bind.
    rewrite Hs, Hu. unfold month_detail, try_except. rewrite Hb.
    reflexivity.
  - exact (url_int_nonneg seg m Hseg).
Qed.

Lemma month_out_of_range_redirects_witness :
  run_request no_fail (mkRequest GET (RMonth (ascii_str "13")) []) w_alice
  = (Redirect ToIndex, w_alice) /\ 0 <= 13.
Proof.
  apply (month_out_of_range_redirects no_fail w_alice 1 alice); try reflexivity.
  right; lia.
Defined.

(** C9: [/month/-1] is outside [1,12] but is answered with the 404 page,
    not with a redirect to [/]. *)
Lemma month_minus_one_not_found :
  run_request no_fail (mkRequest GET (RMonth (ascii_str "-1")) []) w_alice
  = (Body MSG_NOT_FOUND 404, w_alice) /\
  fst (run_request no_fail (mkRequest GET (RMonth (ascii_str "-1")) []) w_alice)
  <> Redirect ToIndex.
Proof. split; [reflexivity | vm_compute; discriminate]. Qed.

(** C1 (code bug): for a logged-in user and an id the user does not own,
    whether the id is absent or another user's, edit (GET or POST) and
    delete answer with the same response and change nothing; that
    response is the handlers' generic 500 message, not the 404 page,
    because [except Exception] catches the [NotFound] of [first_or_404]. *)
Theorem edit_delete_not_owned_generic_error (fl : DbOp -> bool) (w : World)
  (uid : Z) (u : User) (seg : pystr) (aid : Z) (meth : Method) (fm fm' : Form)
  (Hs : w_session w = LoggedIn uid)
  (Hu : find_user_by_id uid (w_store w) = Some u)
  (Hseg : url_int seg = Some aid)
  (Hq : fl OpQuery = false)
  (Hno : find_owned aid (user_id u) (w_store w) = None) :
  run_request fl (mkRequest meth (REditActivity seg) fm) w = (Body MSG_ERROR 500, w) /\
  run_request fl (mkRequest GET (RDeleteActivity seg) fm') w = (Body MSG_ERROR 500, w) /\
  Body MSG_ERROR 500 <> Body MSG_NOT_FOUND 404.
Proof.
  destruct w as [st fls ss]; cbn in Hs, Hu, Hno; subst ss.
  unfold run_request, handle; cbn [req_route req_method req_form].
  rewrite Hseg. split; [| split].
  - unfold login_required, current_user, bind; cbn. rewrite Hu.
    unfold edit_activity, query, db_access, try_except, bind; cbn -[find_owned].
    rewrite Hq; cbn -[find_owned]; rewrite Hno; reflexivity.
  - unfold login_required, current_user, bind; cbn. rewrite Hu.
    unfold delete_activity, query, db_access, try_except, bind; cbn -[find_owned].
    rewrite Hq; cbn -[find_owned]; rewrite Hno; reflexivity.
  - discriminate.
Qed.

Lemma edit_delete_not_owned_generic_error_witness :
  run_request no_fail (mkRequest POST (REditActivity (ascii_str "1"))
                         (activity_form (ascii_str "4") KAZOKU)) w_alice
  = (Body MSG_ERROR 500, w_alice) /\
  run_request no_fail (mkRequest GET (RDeleteActivity (ascii_str "1")) []) w_alice
  = (Body MSG_ERROR 500, w_alice) /\
  Body MSG_ERROR 500 <> Body MSG_NOT_FOUND 404.
Proof.
  apply (edit_delete_not_owned_generic_error no_fail w_alice 1 alice _ 1); reflexivity.
Defined.

Ltac unfold_m :=
  unfold run_request, handle, login_required, current_user, index, login,
    register, logout, month_detail, add_activity, edit_activity,
    delete_activity, not_found_error, create_user, first_or_404, commit,
    reload_month, query, db_access, form_get, int_of, season_lookup, flash,
    login_user, logout_user, server_error, try_except, ret, raise, bind.

Lemma form_get_register_form : forall n m p c,
  form_get (register_form n m p c) "username" = ret n /\
  form_get (register_form n m p c) "email" = ret m /\
  form_get (register_form n m p c) "password" = ret p /\
  form_get (register_form n m p c) "confirm_password" = ret c.
Proof. intros; repeat split. Qed.

Lemma find_app_new : forall {A} (p : A -> bool) l x,
  p x = true -> find p (l ++ [x]) <> None.
Proof.
  intros A p l x Hx. induction l as [|y l IH]; simpl.
  - rewrite Hx; discriminate.
  - destruct (p y); [discriminate | exact IH].
Qed.

Definition register_req (name mail pw confirm : pystr) : Request :=
  mkRequest POST RRegister (register_form name mail pw confirm).

Lemma register_dup_name : forall st fls name mail pw confirm,
  find_user_by_name name st <> None ->
  run_request no_fail (register_req name mail pw confirm) (mkWorld st fls Anonymous)
  = (Render "register.html", mkWorld st (fls ++ [(MSG_DUP_USERNAME, "error"%string)]) Anonymous).
Proof.
  intros st fls name mail pw confirm H. unfold register_req. unfold_m.
  cbv -[find_user_by_name find_user_by_email].
  destruct (find_user_by_name name st); [reflexivity | congruence].
Qed.

Lemma register_dup_email : forall st fls name mail pw confirm,
  find_user_by_name name st = None ->
  find_user_by_email mail st <> None ->
  run_request no_fail (register_req name mail pw confirm) (mkWorld st fls Anonymous)
  = (Render "register.html", mkWorld st (fls ++ [(MSG_DUP_EMAIL, "error"%string)]) Anonymous).
Proof.
  intros st fls name mail pw confirm H1 H2. unfold register_req. unfold_m.
  cbv -[find_user_by_name find_user_by_email]. rewrite H1.
  destruct (find_user_by_email mail st); [reflexivity | congruence].
Qed.

Ltac simple_scrutinee x :=
  lazymatch x with
  | context [match _ with _ => _ end] => fail
  | (_, _) => fail
  | _ => idtac
  end.

(** Case on the outcome of each opaque test in [H], reducing as it goes. *)
Ltac destr_in H :=
  repeat (match type of H with
          | context [match ?x with _ => _ end] =>
              simple_scrutinee x; destruct x eqn:?
          end; cbn beta iota zeta in H).

Lemma register_success_store : forall st fls name mail pw confirm w1,
  run_request no_fail (register_req name mail pw confirm) (mkWorld st fls Anonymous)
  = (Redirect ToIndex, w1) ->
  w_store w1 = insert_user name mail (Hashed pw) st.
Proof.
  intros st fls name mail pw confirm w1 H. unfold register_req in H.
  unfold run_request, handle, register in H; cbn [req_method req_route req_form] in H.
  destruct (form_get_register_form name mail pw confirm) as (E1 & E2 & E3 & E4).
  rewrite E1, E2, E3, E4 in H. unfold_m.
  cbv -[find_user_by_name find_user_by_email validate_password str_eqb insert_user] in H.
  destr_in H; try discriminate; inversion H; subst; reflexivity.
Qed.

Lemma insert_user_finds : forall st name mail h,
  find_user_by_name name (insert_user name mail h st) <> None /\
  find_user_by_email mail (insert_user name mail h st) <> None.
Proof.
  intros st name mail h. unfold find_user_by_name, find_user_by_email, insert_user; cbn.
  split; apply find_app_new; cbn; apply str_eqb_refl.
Qed.

(** C5: registering (from an anonymous session, in any store) with a
    username that exists renders the form again with the duplicate-username
    message and adds no user; with a new username but an existing email,
    the same with the duplicate-email message; hence after a successful
    registration, registering again with the same username or the same
    email fails with one of the duplicate messages and adds no user. *)
Theorem register_duplicate_rejected (st : Store) (fls : list Flash)
  (name mail pw confirm : pystr) :
  (find_user_by_name name st <> None ->
   run_request no_fail (register_req name mail pw confirm) (mkWorld st fls Anonymous)
   = (Render "register.html",
      mkWorld st (fls ++ [(MSG_DUP_USERNAME, "error"%string)]) Anonymous)) /\
  (find_user_by_name name st = None -> find_user_by_email mail st <> None ->
   run_request no_fail (register_req name mail pw confirm) (mkWorld st fls Anonymous)
   = (Render "register.html",
      mkWorld st (fls ++ [(MSG_DUP_EMAIL, "error"%string)]) Anonymous)) /\
  (forall w1 fls2 name' mail' pw' confirm',
   run_request no_fail (register_req name mail pw confirm) (mkWorld st fls Anonymous)
   = (Redirect ToIndex, w1) ->
   name' = name \/ mail' = mail ->
   exists msg,
     (msg = MSG_DUP_USERNAME \/ msg = MSG_DUP_EMAIL) /\
     run_request no_fail (register_req name' mail' pw' confirm')
       (mkWorld (w_store w1) fls2 Anonymous)
     = (Render "register.html",
        mkWorld (w_store w1) (fls2 ++ [(msg, "error"%string)]) Anonymous)).
Proof.
  split; [| split].
  - apply register_dup_name.
  - apply register_dup_email.
  - intros w1 fls2 name' mail' pw' confirm' Hrun Hsame.
    apply register_success_store in Hrun. rewrite Hrun.
    destruct (insert_user_finds st name mail (Hashed pw)) as [Hn Hm].
    destruct (find_user_by_name name' (insert_user name mail (Hashed pw) st)) eqn:E.
    + exists MSG_DUP_USERNAME. split; [left; reflexivity |].
      apply register_dup_name. congruence.
    + exists MSG_DUP_EMAIL. split; [right; reflexivity |].
      apply register_dup_email; [exact E |].
      destruct Hsame as [-> | ->]; congruence.
Qed.

Lemma register_duplicate_rejected_witness :
  exists w1,
    run_request no_fail
      (register_req (ascii_str "alice") (ascii_str "a@x.com")
         (ascii_str "alice123") (ascii_str "alice123"))
      (mkWorld (mkStore [] []) [] Anonymous) = (Redirect ToIndex, w1) /\
    exists msg,
      (msg = MSG_DUP_USERNAME \/ msg = MSG_DUP_EMAIL) /\
      run_request no_fail
        (register_req (ascii_str "alice") (ascii_str "other@x.com")
           (ascii_str "secret99") (ascii_str "secret99"))
        (mkWorld (w_store w1) [] Anonymous)
      = (Render "register.html",
         mkWorld (w_store w1) ([] ++ [(msg, "error"%string)]) Anonymous).
Proof.
  eexists. split; [reflexivity |].
  apply (proj2 (proj2 (register_duplicate_rejected (mkStore [] []) []
    (ascii_str "alice") (ascii_str "a@x.com") (ascii_str "alice123")
    (ascii_str "alice123")))); [reflexivity | left; reflexivity].
Defined.

(** ** The grouping of [month_detail] *)

Definition group_keys : list pystr := [HITORI; TOMODACHI; KAZOKU; OTOSHIYORI].

Lemma str_eqb_sym : forall s t, str_eqb s t = str_eqb t s.
Proof.
  intros s t. destruct (str_eqb s t) eqn:E1, (str_eqb t s) eqn:E2; try reflexivity.
  - apply str_eqb_eq in E1; subst; rewrite str_eqb_refl in E2; discriminate.
  - apply str_eqb_eq in E2; subst; rewrite str_eqb_refl in E1; discriminate.
Qed.

Lemma group_keys_nodup : NoDup group_keys.
Proof.
  repeat constructor; simpl; intros H; repeat destruct H as [H | H];
    try discriminate; contradiction.
Qed.

Lemma group_append_map : forall ks (f : pystr -> list SeasonActivity) t a,
  NoDup ks ->
  group_append t a (map (fun k => (k, f k)) ks)
  = map (fun k => (k, if str_eqb k t then f k ++ [a] else f k)) ks.
Proof.
  induction ks as [|k ks IH]; intros f t a Hnd; [reflexivity |].
  inversion Hnd as [|? ? Hnotin Hnd']; subst. simpl.
  destruct (str_eqb k t) eqn:E.
  - f_equal. apply str_eqb_eq in E; subst k.
    apply map_ext_in. intros k' Hk'.
    destruct (str_eqb k' t) eqn:E'; [| reflexivity].
    apply str_eqb_eq in E'; subst; contradiction.
  - f_equal. apply IH; exact Hnd'.
Qed.

Lemma has_group_map : forall ks (f : pystr -> list SeasonActivity) t,
  has_group t (map (fun k => (k, f k)) ks) = existsb (fun k => str_eqb k t) ks.
Proof.
  induction ks as [|k ks IH]; intros f t; simpl; [reflexivity |].
  rewrite IH; reflexivity.
Qed.

Lemma categorize_from_map : forall acts ks (f : pystr -> list SeasonActivity),
  NoDup ks ->
  categorize_from (map (fun k => (k, f k)) ks) acts
  = map (fun k => (k, f k ++ filter (fun a => str_eqb (activity_type a) k) acts)) ks.
Proof.
  induction acts as [|a r IH]; intros ks f Hnd.
  - simpl. apply map_ext; intros k; rewrite app_nil_r; reflexivity.
  - simpl.
    set (f' := fun k => if str_eqb k (activity_type a) then f k ++ [a] else f k).
    assert (Hstep : (if has_group (activity_type a) (map (fun k => (k, f k)) ks)
                     then group_append (activity_type a) a (map (fun k => (k, f k)) ks)
                     else map (fun k => (k, f k)) ks)
                    = map (fun k => (k, f' k)) ks).
    { rewrite has_group_map.
      destruct (existsb (fun k => str_eqb k (activity_type a)) ks) eqn:Ex.
      - apply group_append_map; exact Hnd.
      - apply map_ext_in. intros k Hk. unfold f'.
        destruct (str_eqb k (activity_type a)) eqn:E; [| reflexivity].
        assert (existsb (fun k => str_eqb k (activity_type a)) ks = true)
          by (apply existsb_exists; eauto).
        congruence. }
    rewrite Hstep, IH by exact Hnd.
    apply map_ext; intros k. unfold f'. rewrite (str_eqb_sym (activity_type a) k).
    destruct (str_eqb k (activity_type a)); [| reflexivity].
    rewrite <- app_assoc; reflexivity.
Qed.

Lemma categorize_spec : forall acts,
  categorize acts
  = map (fun k => (k, filter (fun a => str_eqb (activity_type a) k) acts)) group_keys.
Proof.
  intros acts. unfold categorize.
  change initial_groups with (map (fun k => (k, @nil SeasonActivity)) group_keys).
  rewrite categorize_from_map by exact group_keys_nodup. reflexivity.
Qed.

Lemma month_detail_lists : forall fl st fls uid u seg m fm,
  find_user_by_id uid st = Some u ->
  url_int seg = Some m -> 1 <= m <= 12 -> fl OpQuery = false ->
  exists info,
    run_request fl (mkRequest GET (RMonth seg) fm) (mkWorld st fls (LoggedIn uid))
    = (RenderMonth m info (categorize (filter_activities m (user_id u) st)),
       mkWorld st fls (LoggedIn uid)).
Proof.
  intros fl st fls uid u seg m fm Hu Hseg Hm Hq.
  assert (Hb : (m <? 1) || (m >? 12) = false).
  { apply orb_false_iff; split; [apply Z.ltb_ge | rewrite Z.gtb_ltb; apply Z.ltb_ge]; lia. }
  destruct (SEASON_DATA m) as [info |] eqn:Hsd.
  - exists info. unfold run_request, handle; cbn [req_route req_method req_form].
    rewrite Hseg. unfold_m. cbn -[find_user_by_id filter_activities SEASON_DATA].
    rewrite Hu, Hb, Hq. cbn -[filter_activities SEASON_DATA]. rewrite Hsd.
    reflexivity.
  - exfalso.
    assert (m = 1 \/ m = 2 \/ m = 3 \/ m = 4 \/ m = 5 \/ m = 6 \/ m = 7 \/
            m = 8 \/ m = 9 \/ m = 10 \/ m = 11 \/ m = 12) as Hc by lia.
    repeat destruct Hc as [-> | Hc]; try (subst m); discriminate.
Qed.

Lemma in_categorize : forall acts k l,
  In (k, l) (categorize acts) <->
  In k group_keys /\ l = filter (fun a => str_eqb (activity_type a) k) acts.
Proof.
  intros acts k l. rewrite categorize_spec, in_map_iff. split.
  - intros [k' [Heq Hin]]. injection Heq as <- <-. auto.
  - intros [Hin ->]. exists k. auto.
Qed.

(** C7: a logged-in user's listing of a month m in 1..12 renders that
    month's activities of the user in four groups, keyed 一人, 友達, 家族,
    お年寄り in that order; an activity whose activity_type is one of the
    four keys is in the group of that key and in no other; an activity
    with any other activity_type is in no group; a group holds only the
    user's activities of that month with its key as activity_type. *)
Theorem month_listing_groups (fl : DbOp -> bool) (st : Store) (fls : list Flash)
  (uid : Z) (u : User) (seg : pystr) (m : Z) (fm : Form)
  (Hu : find_user_by_id uid st = Some u)
  (Hseg : url_int seg = Some m) (Hm : 1 <= m <= 12) (Hq : fl OpQuery = false) :
  let acts := filter_activities m (user_id u) st in
  (exists info,
     run_request fl (mkRequest GET (RMonth seg) fm) (mkWorld st fls (LoggedIn uid))
     = (RenderMonth m info (categorize acts), mkWorld st fls (LoggedIn uid))) /\
  map fst (categorize acts) = group_keys /\
  (forall a, In a acts -> In (activity_type a) group_keys ->
     forall k l, In (k, l) (categorize acts) -> (In a l <-> k = activity_type a)) /\
  (forall a, In a acts -> ~ In (activity_type a) group_keys ->
     forall k l, In (k, l) (categorize acts) -> ~ In a l) /\
  (forall k l a, In (k, l) (categorize acts) -> In a l ->
     In a acts /\ activity_type a = k).
Proof.
  intros acts. split; [| split; [| split; [| split]]].
  - apply month_detail_lists; assumption.
  - rewrite categorize_spec, map_map. apply map_id.
  - intros a Ha _ k l Hkl. apply in_categorize in Hkl as [_ ->].
    rewrite filter_In, str_eqb_eq. split; [intros [_ ?]; auto | intros ->; auto].
  - intros a _ Hnot k l Hkl Hin. apply in_categorize in Hkl as [Hk ->].
    apply filter_In in Hin as [_ Heq]. apply str_eqb_eq in Heq. subst k.
    contradiction.
  - intros k l a Hkl Hin. apply in_categorize in Hkl as [_ ->].
    apply filter_In in Hin as [Hin Heq]. apply str_eqb_eq in Heq. auto.
Qed.

(** Alice adds an activity for month 6 with type 友達, then lists month 6. *)
Definition w_after_add6 : World :=
  snd (run_request no_fail
         (mkRequest POST RAddActivity (activity_form (ascii_str "6") TOMODACHI))
         w_alice).

Lemma month_listing_groups_witness :
  (exists info,
     run_request no_fail (mkRequest GET (RMonth (ascii_str "6")) [])
       (mkWorld (w_store w_after_add6) [] (LoggedIn 1))
     = (RenderMonth 6 info
          (categorize (filter_activities 6 1 (w_store w_after_add6))),
        mkWorld (w_store w_after_add6) [] (LoggedIn 1))) /\
  categorize (filter_activities 6 1 (w_store w_after_add6))
  = [(HITORI, []);
     (TOMODACHI, [mkActivity 2 1 6 NATSU TOMODACHI (ascii_str "outing")
                    (ascii_str "Walk") []]);
     (KAZOKU, []); (OTOSHIYORI, [])].
Proof.
  split; [| vm_compute; reflexivity].
  exact (proj1 (month_listing_groups no_fail (w_store w_after_add6) [] 1 alice
                  (ascii_str "6") 6 [] eq_refl eq_refl ltac:(lia) eq_refl)).
Defined.

(** ** Creating an activity and counting a month's rows *)

Lemma form_get_activity_fields : forall mt ty cat ti de,
  form_get (activity_fields mt ty cat ti de) "month" = ret mt /\
  form_get (activity_fields mt ty cat ti de) "activity_type" = ret ty /\
  form_get (activity_fields mt ty cat ti de) "category" = ret cat /\
  form_get (activity_fields mt ty cat ti de) "title" = ret ti /\
  form_get (activity_fields mt ty cat ti de) "description" = ret de.
Proof. intros; repeat split. Qed.

Lemma add_activity_persists : forall fl st fls uid u mt m info ty cat ti de,
  find_user_by_id uid st = Some u ->
  py_int mt = Some m -> SEASON_DATA m = Some info -> fl OpCommit = false ->
  run_request fl (mkRequest POST RAddActivity (activity_fields mt ty cat ti de))
    (mkWorld st fls (LoggedIn uid))
  = (Redirect (ToMonth m),
     mkWorld (insert_activity (user_id u) m (si_name info) ty cat ti de st)
       (fls ++ [(MSG_ADDED, "success"%string)]) (LoggedIn uid)).
Proof.
  intros fl st fls uid u mt m info ty cat ti de Hu Hm Hsd Hc.
  unfold run_request, handle, login_required, current_user, bind.
  cbn [req_route req_method req_form w_session w_store]. rewrite Hu.
  unfold add_activity.
  destruct (form_get_activity_fields mt ty cat ti de) as (E1 & E2 & E3 & E4 & E5).
  rewrite E1, E2, E3, E4, E5.
  unfold try_except, bind, ret, int_of, season_lookup, commit, flash.
  rewrite Hm; cbn -[SEASON_DATA insert_activity]; rewrite Hsd;
  cbn -[insert_activity]; rewrite Hc; reflexivity.
Qed.

Lemma count_months_ok : forall fl uid ms w,
  fl OpQuery = false ->
  count_months fl uid ms w
  = (Ok (map (fun m => (m, List.length (filter_activities m uid (w_store w)))) ms), w).
Proof.
  intros fl uid ms w Hq. induction ms as [|m ms IH]; [reflexivity |].
  cbn [count_months]. unfold bind at 1, query, bind at 1, db_access.
  rewrite Hq. cbv beta iota. unfold bind. rewrite IH. reflexivity.
Qed.

Lemma index_counts : forall fl st fls uid u,
  find_user_by_id uid st = Some u -> fl OpQuery = false ->
  run_request fl (mkRequest GET RIndex []) (mkWorld st fls (LoggedIn uid))
  = (RenderIndex (map (fun m => (m, List.length (filter_activities m (user_id u) st)))
                    months_1_12),
     mkWorld st fls (LoggedIn uid)).
Proof.
  intros fl st fls uid u Hu Hq.
  unfold run_request, handle, index, try_except, current_user, bind.
  cbn [req_route req_method w_session w_store]. rewrite Hu.
  rewrite count_months_ok by exact Hq. reflexivity.
Qed.

(** The number of activities shown by a month page. *)
Definition groups_total (gs : list (pystr * list SeasonActivity)) : nat :=
  fold_right (fun p n => (List.length (snd p) + n)%nat) 0%nat gs.

(** Alice adds an activity for month 6 whose activity_type is "picnic". *)
Definition w_after_add_unknown : World :=
  snd (run_request no_fail
         (mkRequest POST RAddActivity (activity_form (ascii_str "6") (ascii_str "picnic")))
         w_alice).

(** C10: create persists whatever activity_type string it is given (with a
    month of the table and a working commit); the dashboard counts every
    row of the user for each month 1..12; and after Alice adds an activity
    of type "picnic" in month 6 the dashboard counts 1 for month 6 while
    the month 6 page shows 0 activities. *)
Theorem dashboard_count_exceeds_listing :
  (forall fl st fls uid u mt m info ty cat ti de,
     find_user_by_id uid st = Some u ->
     py_int mt = Some m -> SEASON_DATA m = Some info -> fl OpCommit = false ->
     run_request fl (mkRequest POST RAddActivity (activity_fields mt ty cat ti de))
       (mkWorld st fls (LoggedIn uid))
     = (Redirect (ToMonth m),
        mkWorld (insert_activity (user_id u) m (si_name info) ty cat ti de st)
          (fls ++ [(MSG_ADDED, "success"%string)]) (LoggedIn uid))) /\
  (forall fl st fls uid u,
     find_user_by_id uid st = Some u -> fl OpQuery = false ->
     run_request fl (mkRequest GET RIndex []) (mkWorld st fls (LoggedIn uid))
     = (RenderIndex (map (fun m => (m, List.length (filter_activities m (user_id u) st)))
                       months_1_12),
        mkWorld st fls (LoggedIn uid))) /\
  (exists counts info groups c,
     fst (run_request no_fail (mkRequest GET RIndex []) w_after_add_unknown)
       = RenderIndex counts /\
     fst (run_request no_fail (mkRequest GET (RMonth (ascii_str "6")) [])
            w_after_add_unknown) = RenderMonth 6 info groups /\
     In (6, c) counts /\ (groups_total groups < c)%nat).
Proof.
  split; [| split].
  - exact add_activity_persists.
  - exact index_counts.
  - vm_compute. do 4 eexists. split; [reflexivity |]. split; [reflexivity |].
    split; [right; right; right; right; right; left; reflexivity | ].
    vm_compute. lia.
Qed.

Lemma dashboard_count_exceeds_listing_witness :
  run_request no_fail
    (mkRequest POST RAddActivity
       (activity_fields (ascii_str "6") (ascii_str "picnic") (ascii_str "outing")
          (ascii_str "Walk") []))
    (mkWorld two_users [] (LoggedIn 1))
  = (Redirect (ToMonth 6),
     mkWorld (insert_activity 1 6 NATSU (ascii_str "picnic") (ascii_str "outing")
                (ascii_str "Walk") [] two_users)
       ([] ++ [(MSG_ADDED, "success"%string)]) (LoggedIn 1)).
Proof.
  exact (proj1 dashboard_count_exceeds_listing no_fail two_users [] 1 alice
           (ascii_str "6") 6 summer_info (ascii_str "picnic") (ascii_str "outing")
           (ascii_str "Walk") [] eq_refl eq_refl eq_refl eq_refl).
Defined.

(** ** The session guard *)

(** The requests that reach a [@login_required] view: a URL rule matches
    and the method is one the rule allows. *)
Definition login_required_request (req : Request) : bool :=
  match req_route req, req_method req with
  | RLogout, GET => true
  | RMonth seg, GET => if url_int seg then true else false
  | RAddActivity, _ => true
  | REditActivity seg, _ => if url_int seg then true else false
  | RDeleteActivity seg, GET => if url_int seg then true else false
  | _, _ => false
  end.

(** C8 (corrected): whatever the database would do (the outcome does not
    depend on [fl], so no statement runs), an anonymous request for month
    detail, add, edit, delete or logout is redirected to the login page
    with the login message flashed and the store unchanged; an anonymous
    request for home is redirected to the login page with no message
    flashed; a logged-in request for the login or register page, with any
    method and form, is redirected to home with nothing else done. *)
Theorem session_guard (fl : DbOp -> bool) (st : Store) (fls : list Flash) :
  (forall req, login_required_request req = true ->
     run_request fl req (mkWorld st fls Anonymous)
     = (Redirect (ToLoginNext (req_route req)),
        mkWorld st (fls ++ [(login_message, login_message_category)]) Anonymous)) /\
  (forall fm, run_request fl (mkRequest GET RIndex fm) (mkWorld st fls Anonymous)
              = (Redirect ToLogin, mkWorld st fls Anonymous)) /\
  (forall uid u meth fm, find_user_by_id uid st = Some u ->
     run_request fl (mkRequest meth RLogin fm) (mkWorld st fls (LoggedIn uid))
     = (Redirect ToIndex, mkWorld st fls (LoggedIn uid)) /\
     run_request fl (mkRequest meth RRegister fm) (mkWorld st fls (LoggedIn uid))
     = (Redirect ToIndex, mkWorld st fls (LoggedIn uid))).
Proof.
  split; [| split].
  - intros [meth r fm] H. unfold login_required_request in H.
    cbn [req_route req_method] in H |- *.
    destruct r; destruct meth; try discriminate;
      unfold run_request, handle; cbn [req_route req_method req_form];
      try (destruct (url_int seg); [| discriminate]); reflexivity.
  - intros fm. reflexivity.
  - intros uid u meth fm Hu. split;
      unfold run_request, handle, login, register, try_except, current_user, bind;
      cbn [req_route req_method req_form w_session w_store]; rewrite Hu; reflexivity.
Qed.

Lemma session_guard_witness :
  run_request no_fail (mkRequest POST RAddActivity (activity_form (ascii_str "3") KAZOKU))
    (mkWorld two_users [] Anonymous)
  = (Redirect (ToLoginNext RAddActivity),
     mkWorld two_users ([] ++ [(login_message, login_message_category)]) Anonymous).
Proof.
  exact (proj1 (session_guard no_fail two_users [])
           (mkRequest POST RAddActivity (activity_form (ascii_str "3") KAZOKU)) eq_refl).
Defined.

(** C8: an anonymous request for home gets the redirect to the login page
    without the please-log-in message. *)
Lemma index_anonymous_no_notice :
  run_request no_fail (mkRequest GET RIndex []) w_anon = (Redirect ToLogin, w_anon) /\
  ~ In (login_message, login_message_category) (w_flashes (snd
      (run_request no_fail (mkRequest GET RIndex []) w_anon))).
Proof. split; [reflexivity | simpl; tauto]. Qed.

(** ** The activity invariant *)

(** A persisted activity: its owner is a user of the store, its month is
    in [1,12] and its season is the table's name for that month. *)
Definition activity_ok (st : Store) (a : SeasonActivity) : Prop :=
  (exists u, In u (users st) /\ user_id u = act_user_id a) /\
  1 <= month a <= 12 /\
  option_map si_name (SEASON_DATA (month a)) = Some (season a).

(** User ids are unique, so an owner is exactly one user. *)
Definition store_inv (st : Store) : Prop :=
  NoDup (map user_id (users st)) /\
  forall a, In a (activities st) -> activity_ok st a.

Lemma SEASON_DATA_range : forall m i, SEASON_DATA m = Some i -> 1 <= m <= 12.
Proof.
  intros m i H. unfold SEASON_DATA in H.
  repeat match type of H with
         | context [Z.eqb m ?k] =>
             let E := fresh "E" in
             destruct (Z.eqb m k) eqn:E; [apply Z.eqb_eq in E; lia |]
         end.
  discriminate.
Qed.

Lemma le_max_fold : forall ids x, In x ids -> x <= fold_right Z.max 0 ids.
Proof.
  induction ids as [|y ids IH]; simpl; intros x H; [contradiction |].
  destruct H as [-> | H]; [lia |]. specialize (IH x H). lia.
Qed.

Lemma inv_insert_user : forall st name mail h,
  store_inv st -> store_inv (insert_user name mail h st).
Proof.
  intros st name mail h [Hnd Hacts]. unfold insert_user. split; cbn.
  - rewrite map_app. cbn. apply NoDup_app; [exact Hnd | constructor; [auto | constructor] |].
    intros x Hx Hin. destruct Hin as [<- | []].
    apply le_max_fold in Hx. unfold next_rowid in Hx. lia.
  - intros a Ha. destruct (Hacts a Ha) as [[u [Hu Hid]] Hrest].
    split; [exists u; split; [apply in_or_app; left; exact Hu | exact Hid] | exact Hrest].
Qed.

Lemma find_user_by_id_in : forall uid st u,
  find_user_by_id uid st = Some u -> In u (users st) /\ user_id u = uid.
Proof.
  unfold find_user_by_id. intros uid st u H. apply find_some in H as [Hin Heq].
  apply Z.eqb_eq in Heq. auto.
Qed.

Lemma find_owned_in : forall aid uid st a,
  find_owned aid uid st = Some a -> In a (activities st).
Proof.
  unfold find_owned. intros aid uid st a H. apply find_some in H as [Hin _]. exact Hin.
Qed.

Lemma inv_insert_activity : forall st uid u m i ty cat ti de,
  store_inv st -> find_user_by_id uid st = Some u -> SEASON_DATA m = Some i ->
  store_inv (insert_activity (user_id u) m (si_name i) ty cat ti de st).
Proof.
  intros st uid u m i ty cat ti de [Hnd Hacts] Hu Hsd. unfold insert_activity.
  split; cbn; [exact Hnd |].
  intros a Ha. apply in_app_or in Ha as [Ha | [<- | []]].
  - exact (Hacts a Ha).
  - apply find_user_by_id_in in Hu as [Hin _].
    split; [exists u; auto |]. cbn. split; [exact (SEASON_DATA_range _ _ Hsd) |].
    rewrite Hsd. reflexivity.
Qed.

Lemma inv_replace_activity : forall st aid uid a m i ty cat ti de,
  store_inv st -> find_owned aid uid st = Some a -> SEASON_DATA m = Some i ->
  store_inv (replace_activity
               (mkActivity (act_id a) (act_user_id a) m (si_name i) ty cat ti de) st).
Proof.
  intros st aid uid a m i ty cat ti de [Hnd Hacts] Ho Hsd. unfold replace_activity.
  split; cbn; [exact Hnd |].
  intros b Hb. apply in_map_iff in Hb as [b0 [Hb Hin]].
  destruct (Z.eqb (act_id b0) (act_id a)); subst b.
  - destruct (Hacts a (find_owned_in _ _ _ _ Ho)) as [Hown _].
    split; [exact Hown |]. cbn. split; [exact (SEASON_DATA_range _ _ Hsd) |].
    rewrite Hsd. reflexivity.
  - exact (Hacts b0 Hin).
Qed.

Lemma inv_remove_activity : forall st aid,
  store_inv st -> store_inv (remove_activity aid st).
Proof.
  intros st aid [Hnd Hacts]. unfold remove_activity. split; cbn; [exact Hnd |].
  intros a Ha. apply filter_In in Ha as [Ha _]. exact (Hacts a Ha).
Qed.

Ltac destr_goal :=
  repeat (match goal with
          | |- context [match ?x with _ => _ end] =>
              simple_scrutinee x; destruct x eqn:?
          end; cbn beta iota zeta).

Ltac close_inv :=
  match goal with
  | H : store_inv ?st |- store_inv ?st => exact H
  | H : store_inv ?st |- store_inv (insert_user _ _ _ ?st) =>
      apply inv_insert_user; exact H
  | H : store_inv ?st |- store_inv (remove_activity _ ?st) =>
      apply inv_remove_activity; exact H
  | H : store_inv ?st, Hu : find_user_by_id _ ?st = Some _,
    Hs : SEASON_DATA _ = Some _ |- store_inv (insert_activity _ _ _ _ _ _ _ ?st) =>
      exact (inv_insert_activity _ _ _ _ _ _ _ _ _ H Hu Hs)
  | H : store_inv ?st, Ho : find_owned _ _ ?st = Some _,
    Hs : SEASON_DATA _ = Some _ |- store_inv (replace_activity _ ?st) =>
      exact (inv_replace_activity _ _ _ _ _ _ _ _ _ _ H Ho Hs)
  end.

Lemma run_request_inv : forall fl req w,
  store_inv (w_store w) -> store_inv (w_store (snd (run_request fl req w))).
Proof.
  intros fl [meth r fm] [st fls ss] H. cbn [w_store] in H.
  unfold_m.
  cbv -[form_lookup find_user_by_id find_user_by_name find_user_by_email
        find_owned find_activity filter_activities SEASON_DATA insert_user
        insert_activity replace_activity remove_activity validate_password
        str_eqb py_int url_int ascii_str store_inv].
  destruct r, meth; destr_goal; try close_inv.
Qed.

Lemma season_field_ignored : forall fl meth r fm s w,
  run_request fl (mkRequest meth r ((ascii_str "season", s) :: fm)) w
  = run_request fl (mkRequest meth r fm) w.
Proof.
  intros fl meth r fm s w. destruct r, meth; reflexivity.
Qed.

Lemma NoDup_map_same : forall {A B} (f : A -> B) l x y,
  NoDup (map f l) -> In x l -> In y l -> f x = f y -> x = y.
Proof.
  intros A B f l. induction l as [|z l IH]; intros x y Hnd Hx Hy Hf; [contradiction |].
  cbn in Hnd. inversion Hnd as [|? ? Hnotin Hnd']; subst.
  destruct Hx as [<- | Hx], Hy as [<- | Hy]; auto.
  - exfalso. apply Hnotin. rewrite Hf. apply in_map; exact Hy.
  - exfalso. apply Hnotin. rewrite <- Hf. apply in_map; exact Hx.
Qed.

Lemma store_inv_one_owner : forall st a,
  store_inv st -> In a (activities st) ->
  exists u, In u (users st) /\ user_id u = act_user_id a /\
    forall u', In u' (users st) -> user_id u' = act_user_id a -> u' = u.
Proof.
  intros st a [Hnd Hacts] Ha. destruct (Hacts a Ha) as [[u [Hu Hid]] _].
  exists u. split; [exact Hu | split; [exact Hid |]].
  intros u' Hu' Hid'. apply (NoDup_map_same user_id (users st)); auto; congruence.
Qed.

Lemma edit_activity_persists : forall fl st fls uid u seg aid a mt m info ty cat ti de,
  find_user_by_id uid st = Some u -> url_int seg = Some aid ->
  find_owned aid (user_id u) st = Some a ->
  py_int mt = Some m -> SEASON_DATA m = Some info -> fl OpQuery = false ->
  fl OpCommit = false ->
  w_store (snd (run_request fl
                  (mkRequest POST (REditActivity seg) (activity_fields mt ty cat ti de))
                  (mkWorld st fls (LoggedIn uid))))
  = replace_activity (mkActivity (act_id a) (act_user_id a) m (si_name info) ty cat ti de) st.
Proof.
  intros fl st fls uid u seg aid a mt m info ty cat ti de Hu Hseg Ho Hm Hsd Hq Hc.
  unfold run_request, handle, login_required, current_user, bind.
  cbn [req_route req_method req_form]. rewrite Hseg.
  cbn -[find_user_by_id edit_activity]. rewrite Hu. unfold edit_activity.
  destruct (form_get_activity_fields mt ty cat ti de) as (E1 & E2 & E3 & E4 & E5).
  rewrite E1, E2, E3, E4, E5.
  unfold try_except, bind, query, db_access, first_or_404, ret, int_of,
    season_lookup, commit, flash, reload_month, db_access, bind.
  rewrite Hq; cbn -[find_owned py_int SEASON_DATA replace_activity find_activity].
  rewrite Ho; cbn -[py_int SEASON_DATA replace_activity find_activity].
  rewrite Hm; cbn -[SEASON_DATA replace_activity find_activity].
  rewrite Hsd; cbn -[replace_activity find_activity]. rewrite Hc.
  destruct (fl OpReload); [reflexivity |].
  destruct (find_activity _ _); reflexivity.
Qed.

(** C2: every request, whatever its route, method, form and database
    failures, keeps the invariant: each persisted activity has exactly
    one owning user, a month in [1,12] and the table's season name for
    that month.  The season never comes from the input: a [season] form
    field changes nothing.  Create and a successful update write the
    season of the submitted month. *)
Theorem activity_invariant_preserved (fl : DbOp -> bool) (req : Request) (w : World)
  (Hinv : store_inv (w_store w)) :
  let st' := w_store (snd (run_request fl req w)) in
  store_inv st' /\
  (forall a, In a (activities st') ->
     exists u, In u (users st') /\ user_id u = act_user_id a /\
       forall u', In u' (users st') -> user_id u' = act_user_id a -> u' = u) /\
  (forall s, run_request fl (mkRequest (req_method req) (req_route req)
                               ((ascii_str "season", s) :: req_form req)) w
             = run_request fl req w) /\
  (forall st fls uid u mt m info ty cat ti de,
     find_user_by_id uid st = Some u -> py_int mt = Some m ->
     SEASON_DATA m = Some info -> fl OpCommit = false ->
     w_store (snd (run_request fl (mkRequest POST RAddActivity
                                     (activity_fields mt ty cat ti de))
                     (mkWorld st fls (LoggedIn uid))))
     = insert_activity (user_id u) m (si_name info) ty cat ti de st) /\
  (forall st fls uid u seg aid a mt m info ty cat ti de,
     find_user_by_id uid st = Some u -> url_int seg = Some aid ->
     find_owned aid (user_id u) st = Some a ->
     py_int mt = Some m -> SEASON_DATA m = Some info -> fl OpQuery = false ->
     fl OpCommit = false ->
     w_store (snd (run_request fl
                     (mkRequest POST (REditActivity seg) (activity_fields mt ty cat ti de))
                     (mkWorld st fls (LoggedIn uid))))
     = replace_activity (mkActivity (act_id a) (act_user_id a) m (si_name info)
                           ty cat ti de) st).
Proof.
  intros st'. assert (Hst : store_inv st') by (apply run_request_inv; exact Hinv).
  split; [exact Hst | split; [| split; [| split]]].
  - intros a Ha. exact (store_inv_one_owner st' a Hst Ha).
  - intros s. destruct req as [meth r fm]. apply season_field_ignored.
  - intros st fls uid u mt m info ty cat ti de Hu Hm Hsd Hc.
    rewrite (add_activity_persists fl st fls uid u mt m info ty cat ti de Hu Hm Hsd Hc).
    reflexivity.
  - exact (edit_activity_persists fl).
Qed.

Lemma two_users_inv : store_inv two_users.
Proof.
  split.
  - repeat constructor; simpl; intros H; repeat destruct H as [H | H];
      try discriminate; contradiction.
  - intros a [<- | []]. split; [exists bob; simpl; auto |].
    split; [simpl; lia | reflexivity].
Qed.

Lemma activity_invariant_preserved_witness :
  store_inv (w_store w_alice) /\
  store_inv (w_store (snd (run_request no_fail
    (mkRequest POST (REditActivity (ascii_str "1")) (activity_form (ascii_str "13") KAZOKU))
    w_alice))).
Proof.
  split; [exact two_users_inv |].
  exact (proj1 (activity_invariant_preserved no_fail
    (mkRequest POST (REditActivity (ascii_str "1")) (activity_form (ascii_str "13") KAZOKU))
    w_alice two_users_inv)).
Defined.

(** ** Errors of the mutating routes *)

Definition mutating_route (r : Route) : bool :=
  match r with
  | RAddActivity | REditActivity _ | RDeleteActivity _ => true
  | _ => false
  end.

Lemma find_in_not_none : forall {A} (p : A -> bool) l x,
  In x l -> p x = true -> find p l <> None.
Proof.
  intros A p l x. induction l as [|y l IH]; simpl; intros Hin Hp; [contradiction |].
  destruct (p y) eqn:E; [discriminate |].
  destruct Hin as [-> | Hin]; [congruence | exact (IH Hin Hp)].
Qed.

(** A committed update keeps the row it rewrites. *)
Lemma replace_keeps_row : forall aid uid st a a',
  find_owned aid uid st = Some a -> act_id a' = act_id a ->
  find_activity (act_id a) (replace_activity a' st) = None -> False.
Proof.
  intros aid uid st a a' Ho Hid Hnone. apply find_owned_in in Ho.
  unfold find_activity, replace_activity in Hnone; cbn in Hnone.
  refine (find_in_not_none _ _ a' _ _ Hnone).
  - apply in_map_iff. exists a. rewrite Hid, Z.eqb_refl. auto.
  - rewrite Hid. apply Z.eqb_refl.
Qed.

(** C3 (corrected): for create, update and delete the handlers catch every
    exception themselves, so Flask's 500 handler (the only code that calls
    [db.session.rollback()]) is never reached; when the request ends with
    the generic 500 message the persisted store is unchanged, since the
    failure came before or at the commit, except for an update whose
    post-commit reload of the activity fails. *)
Theorem mutation_error_leaves_store (fl : DbOp -> bool) (req : Request) (w : World)
  (Hr : mutating_route (req_route req) = true)
  (Hreload : fl OpReload = false \/ forall seg, req_route req <> REditActivity seg) :
  fst (run_request fl req w) <> Body MSG_SERVER_ERROR 500 /\
  (fst (run_request fl req w) = Body MSG_ERROR 500 ->
   w_store (snd (run_request fl req w)) = w_store w).
Proof.
  destruct req as [meth r fm], w as [st fls ss]. cbn [req_route] in Hr, Hreload.
  unfold_m.
  cbv -[form_lookup find_user_by_id find_user_by_name find_user_by_email
        find_owned find_activity filter_activities SEASON_DATA insert_user
        insert_activity replace_activity remove_activity validate_password
        str_eqb py_int url_int ascii_str].
  destruct r; try discriminate; destruct meth; destr_goal;
    (split; [discriminate | intros Herr; try reflexivity; try discriminate]).
  all: try (destruct Hreload as [Hrl | Hne]; [congruence | exfalso; eapply Hne; reflexivity]).
  all: exfalso; match goal with
                | H : find_activity _ (replace_activity ?a' _) = None,
                  Ho : find_owned _ _ _ = Some ?a |- _ =>
                    exact (replace_keeps_row _ _ _ a a' Ho eq_refl H)
                end.
Qed.

Lemma mutation_error_leaves_store_witness :
  fst (run_request no_fail
         (mkRequest POST RAddActivity (activity_form (ascii_str "13") KAZOKU)) w_alice)
  <> Body MSG_SERVER_ERROR 500 /\
  (fst (run_request no_fail
          (mkRequest POST RAddActivity (activity_form (ascii_str "13") KAZOKU)) w_alice)
   = Body MSG_ERROR 500 ->
   w_store (snd (run_request no_fail
          (mkRequest POST RAddActivity (activity_form (ascii_str "13") KAZOKU)) w_alice))
   = w_store w_alice).
Proof.
  apply mutation_error_leaves_store; [reflexivity |].
  right; intros seg; discriminate.
Defined.

(** The database refuses only the reload that follows a commit. *)
Definition reload_fails : DbOp -> bool :=
  fun op => match op with OpReload => true | _ => false end.

(** C3: Alice edits her activity 2 to month 7; the commit succeeds, the
    reload of [activity.month] for the redirect fails: the response is the
    generic 500 message, yet the update is persisted. *)
Lemma edit_error_after_commit :
  let req := mkRequest POST (REditActivity (ascii_str "2"))
               (activity_form (ascii_str "7") TOMODACHI) in
  fst (run_request reload_fails req w_after_add6) = Body MSG_ERROR 500 /\
  w_store (snd (run_request reload_fails req w_after_add6)) <> w_store w_after_add6.
Proof.
  split; [vm_compute; reflexivity |].
  vm_compute. intros H. injection H. intros. discriminate.
Qed.

(** * Further properties of the handlers *)

(** ** [validate_password] *)

Lemma alnum_plus_dollar_true : forall s,
  alnum_plus_dollar s true = true <->
  exists t r, s = t ++ r /\ forallb is_ascii_alnum t = true /\ dollar_matches r = true.
Proof.
  induction s as [|c s IH].
  - simpl. split; [intros _; exists [], []; auto | auto].
  - cbn [alnum_plus_dollar]. rewrite andb_true_l, orb_true_iff, andb_true_iff, IH.
    split.
    + intros [Hd | [Hc [t [r [-> [Ht Hr]]]]]].
      * exists [], (c :: s). auto.
      * exists (c :: t), r. cbn. rewrite Hc, Ht. auto.
    + intros [t [r [Hs [Ht Hr]]]]. destruct t as [|c' t].
      * left. cbn in Hs. subst r. exact Hr.
      * right. cbn in Hs, Ht. injection Hs as -> ->.
        apply andb_true_iff in Ht as [Hc Ht]. split; [exact Hc |].
        exists t, r. auto.
Qed.

Lemma re_match_alnum_spec : forall s,
  re_match_alnum s = true <->
  exists t r, t <> [] /\ s = t ++ r /\ forallb is_ascii_alnum t = true /\
    dollar_matches r = true.
Proof.
  intros [|c s]; unfold re_match_alnum; cbn [alnum_plus_dollar].
  - split; [discriminate | intros [t [r [Ht [Hs _]]]]].
    destruct t; [congruence | discriminate].
  - rewrite andb_false_l, orb_false_l, andb_true_iff, alnum_plus_dollar_true. split.
    + intros [Hc [t [r [-> [Ht Hr]]]]]. exists (c :: t), r.
      split; [discriminate |]. cbn. rewrite Hc, Ht. auto.
    + intros [t [r [Hne [Hs [Ht Hr]]]]]. destruct t as [|c' t]; [congruence |].
      cbn in Hs, Ht. injection Hs as -> ->. apply andb_true_iff in Ht as [Hc Ht].
      split; [exact Hc | exists t, r; auto].
Qed.

Lemma dollar_matches_iff : forall r, dollar_matches r = true <-> r = [] \/ r = [10].
Proof.
  intros r. split.
  - intros H. destruct r as [|c r]; [auto |]. right. unfold dollar_matches in H.
    destruct c as [|p|p]; try discriminate;
      repeat (destruct p; try discriminate);
      destruct r; try discriminate; reflexivity.
  - intros [-> | ->]; reflexivity.
Qed.

(** [validate_password] accepts exactly the passwords of at least 8 code
    points that are ASCII letters and digits, optionally followed by one
    final newline; its message is then empty. *)
Theorem validate_password_accepts_iff (pw : pystr) :
  fst (validate_password pw) = true <->
  (8 <= List.length pw)%nat /\
  (forallb is_ascii_alnum pw = true \/
   exists t, pw = t ++ [10] /\ forallb is_ascii_alnum t = true).
Proof.
  unfold validate_password. destruct pw as [|c s] eqn:Epw.
  - cbn. split; [discriminate | intros [H _]; lia].
  - rewrite <- Epw. destruct (Nat.ltb (List.length pw) 8) eqn:Elt.
    + apply Nat.ltb_lt in Elt. cbn. split; [discriminate | intros [H _]; lia].
    + apply Nat.ltb_ge in Elt.
      destruct (re_match_alnum pw) eqn:Ere; cbn.
      * split; [intros _; split; [exact Elt |] | intros _; reflexivity].
        apply re_match_alnum_spec in Ere as [t [r [_ [-> [Ht Hr]]]]].
        apply dollar_matches_iff in Hr as [-> | ->].
        -- left. rewrite app_nil_r. exact Ht.
        -- right. exists t. auto.
      * split; [discriminate |]. intros [_ Hc].
        enough (re_match_alnum pw = true) by congruence.
        apply re_match_alnum_spec. destruct Hc as [Hall | [t [Ht Hall]]].
        -- exists pw, []. rewrite app_nil_r. subst pw.
           split; [discriminate | auto].
        -- exists t, [10]. split; [| auto].
           intros ->. rewrite Ht in Elt. cbn in Elt. lia.
Qed.

Lemma validate_password_accepts_iff_witness :
  fst (validate_password (ascii_str "Passw0rd")) = true <->
  (8 <= List.length (ascii_str "Passw0rd"))%nat /\
  (forallb is_ascii_alnum (ascii_str "Passw0rd") = true \/
   exists t, ascii_str "Passw0rd" = t ++ [10] /\ forallb is_ascii_alnum t = true).
Proof. exact (validate_password_accepts_iff (ascii_str "Passw0rd")). Defined.

(** The rejection message follows the order of the checks: an empty
    password gets the "enter a password" message, one of 1 to 7 code
    points the "at least 8" message whatever its characters, and a longer
    one failing the pattern the "letters and digits only" message. *)
Theorem validate_password_messages :
  validate_password [] = (false, MSG_PW_EMPTY) /\
  (forall pw, (0 < List.length pw < 8)%nat -> validate_password pw = (false, MSG_PW_SHORT)) /\
  (forall pw, (8 <= List.length pw)%nat -> re_match_alnum pw = false ->
     validate_password pw = (false, MSG_PW_CHARS)).
Proof.
  split; [reflexivity | split].
  - intros pw Hl. unfold validate_password. destruct pw as [|c s]; [cbn in Hl; lia |].
    destruct (Nat.ltb_spec (List.length (c :: s)) 8); [reflexivity | lia].
  - intros pw Hl Hre. unfold validate_password. destruct pw as [|c s]; [cbn in Hl; lia |].
    rewrite (proj2 (Nat.ltb_ge _ _) Hl), Hre. reflexivity.
Qed.

Lemma validate_password_messages_witness :
  validate_password (ascii_str "a b") = (false, MSG_PW_SHORT) /\
  validate_password (ascii_str "abcd efgh") = (false, MSG_PW_CHARS).
Proof.
  split.
  - apply (proj1 (proj2 validate_password_messages)). cbn. lia.
  - apply (proj2 (proj2 validate_password_messages)); [cbn; lia | reflexivity].
Defined.

(** ** [login], [register] and [logout] *)

Definition login_form (name pw : pystr) : Form :=
  [(ascii_str "username", name); (ascii_str "password", pw)].

Lemma form_get_login_form : forall n p,
  form_get (login_form n p) "username" = ret n /\
  form_get (login_form n p) "password" = ret p.
Proof. intros; split; reflexivity. Qed.


(** An anonymous login POST with a known username and its password logs
    that user in; an unknown username and a wrong password both give the
    same generic message and the login page again, leaving the session
    anonymous.  Neither changes the store. *)
Theorem login_outcomes (fl : DbOp -> bool) (st : Store) (fls : list Flash)
  (name pw : pystr) (Hq : fl OpQuery = false) :
  (forall u, find_user_by_name name st = Some u ->
     check_password_hash (password_hash u) pw = true ->
     run_request fl (mkRequest POST RLogin (login_form name pw)) (mkWorld st fls Anonymous)
     = (Redirect ToIndex,
        mkWorld st (fls ++ [(MSG_LOGGED_IN, "success"%string)]) (LoggedIn (user_id u)))) /\
  ((find_user_by_name name st = None \/
    exists u, find_user_by_name name st = Some u /\
              check_password_hash (password_hash u) pw = false) ->
     run_request fl (mkRequest POST RLogin (login_form name pw)) (mkWorld st fls Anonymous)
     = (Render "login.html",
        mkWorld st (fls ++ [(MSG_BAD_LOGIN, "error"%string)]) Anonymous)).
Proof.
  destruct (form_get_login_form name pw) as [E1 E2].
  unfold run_request, handle, login; cbn [req_route req_method req_form].
  rewrite E1, E2. unfold_m.
  cbv -[find_user_by_name check_password_hash]. rewrite Hq.
  split.
  - intros u Hu Hc. rewrite Hu, Hc. reflexivity.
  - intros [Hn | [u [Hu Hc]]]; [rewrite Hn | rewrite Hu, Hc]; reflexivity.
Qed.

Lemma login_outcomes_witness :
  run_request no_fail
    (mkRequest POST RLogin (login_form (ascii_str "alice") (ascii_str "alice124")))
    (mkWorld two_users [] Anonymous)
  = (Render "login.html",
     mkWorld two_users ([] ++ [(MSG_BAD_LOGIN, "error"%string)]) Anonymous).
Proof.
  apply (login_outcomes no_fail two_users [] _ _ eq_refl).
  right. exists alice. split; reflexivity.
Defined.


Lemma next_rowid_fresh : forall ids, ~ In (next_rowid ids) ids.
Proof.
  intros ids Hin. apply le_max_fold in Hin. unfold next_rowid in Hin. lia.
Qed.




(** With a username and an email that are both new, the registration
    checks the password policy before the confirmation: a password that
    fails [validate_password] is reported with its own message whatever
    the confirmation, and a valid password with a different confirmation
    gets the mismatch message.  No user is added and nobody is logged in. *)
Theorem register_rejections (fl : DbOp -> bool) (st : Store) (fls : list Flash)
  (name mail pw confirm : pystr)
  (Hn : find_user_by_name name st = None) (Hm : find_user_by_email mail st = None)
  (Hq : fl OpQuery = false) :
  (forall msg, validate_password pw = (false, msg) ->
     run_request fl (register_req name mail pw confirm) (mkWorld st fls Anonymous)
     = (Render "register.html", mkWorld st (fls ++ [(msg, "error"%string)]) Anonymous)) /\
  (fst (validate_password pw) = true -> pw <> confirm ->
     run_request fl (register_req name mail pw confirm) (mkWorld st fls Anonymous)
     = (Render "register.html",
        mkWorld st (fls ++ [(MSG_MISMATCH, "error"%string)]) Anonymous)).
Proof.
  unfold register_req. unfold run_request, handle, register; cbn [req_route req_method req_form].
  destruct (form_get_register_form name mail pw confirm) as (E1 & E2 & E3 & E4).
  rewrite E1, E2, E3, E4. unfold_m.
  cbv -[find_user_by_name find_user_by_email validate_password str_eqb].
  rewrite Hq, Hn, Hm. split.
  - intros msg Ev. rewrite Ev. reflexivity.
  - intros Hv Hne. destruct (validate_password pw) as [b msg]. cbn in Hv. subst b.
    destruct (str_eqb pw confirm) eqn:Ee; [apply str_eqb_eq in Ee; contradiction |].
    reflexivity.
Qed.

Lemma register_rejections_witness :
  run_request no_fail
    (register_req (ascii_str "carol") (ascii_str "c@x.com") (ascii_str "carol123")
       (ascii_str "carol124")) (mkWorld two_users [] Anonymous)
  = (Render "register.html",
     mkWorld two_users ([] ++ [(MSG_MISMATCH, "error"%string)]) Anonymous).
Proof.
  apply (proj2 (register_rejections no_fail two_users [] (ascii_str "carol")
    (ascii_str "c@x.com") (ascii_str "carol123") (ascii_str "carol124")
    eq_refl eq_refl eq_refl)).
  - reflexivity.
  - intro H. discriminate H.
Defined.

Lemma logout_run : forall fl st fls uid u fm,
  find_user_by_id uid st = Some u ->
  run_request fl (mkRequest GET RLogout fm) (mkWorld st fls (LoggedIn uid))
  = (Redirect ToLogin, mkWorld st (fls ++ [(MSG_LOGGED_OUT, "info"%string)]) Anonymous).
Proof.
  intros fl st fls uid u fm Hu.
  unfold run_request, handle, login_required, current_user, bind.
  cbn [req_route req_method req_form w_session w_store]. rewrite Hu. reflexivity.
Qed.

(** A logged-in [GET /logout] ends the session: the session is anonymous,
    the logged-out message is flashed, the response goes to the login page
    and the store is unchanged. *)
Theorem logout_ends_session (fl : DbOp -> bool) (st : Store) (fls : list Flash)
  (uid : Z) (u : User) (fm : Form) (Hu : find_user_by_id uid st = Some u) :
  run_request fl (mkRequest GET RLogout fm) (mkWorld st fls (LoggedIn uid))
  = (Redirect ToLogin, mkWorld st (fls ++ [(MSG_LOGGED_OUT, "info"%string)]) Anonymous).
Proof. exact (logout_run fl st fls uid u fm Hu). Qed.

Lemma logout_ends_session_witness :
  run_request no_fail (mkRequest GET RLogout []) w_alice
  = (Redirect ToLogin, mkWorld two_users ([] ++ [(MSG_LOGGED_OUT, "info"%string)]) Anonymous).
Proof. exact (logout_ends_session no_fail two_users [] 1 alice [] eq_refl). Defined.

Lemma find_none_forall : forall {A} (p : A -> bool) l,
  (forall x, In x l -> p x = false) -> find p l = None.
Proof.
  intros A p l H. induction l as [|y l IH]; cbn; [reflexivity |].
  rewrite (H y (or_introl eq_refl)). apply IH. intros x Hx. apply H; right; exact Hx.
Qed.



(** ** What a request can write *)

(** The user [current_user] loads for a session. *)
Definition session_user (s : Session) (st : Store) : option User :=
  match s with
  | Anonymous => None
  | LoggedIn uid => find_user_by_id uid st
  end.

(** The store writes the views make: none, one new user (registration,
    when no user is loaded), one new activity of the loaded user, the
    update or the deletion of a row the loaded user owns. *)
Inductive store_change (s : Session) (st : Store) : Store -> Prop :=
| sc_same : store_change s st st
| sc_user : forall name mail h,
    session_user s st = None -> store_change s st (insert_user name mail h st)
| sc_add : forall u m sn ty cat ti de,
    session_user s st = Some u ->
    store_change s st (insert_activity (user_id u) m sn ty cat ti de st)
| sc_edit : forall u aid a m sn ty cat ti de,
    session_user s st = Some u -> find_owned aid (user_id u) st = Some a ->
    store_change s st
      (replace_activity (mkActivity (act_id a) (act_user_id a) m sn ty cat ti de) st)
| sc_del : forall u aid a,
    session_user s st = Some u -> find_owned aid (user_id u) st = Some a ->
    store_change s st (remove_activity (act_id a) st).

Lemma run_request_change : forall fl req w,
  store_change (w_session w) (w_store w) (w_store (snd (run_request fl req w))).
Proof.
  intros fl [meth r fm] [st fls ss]. cbn [w_store w_session].
  unfold_m.
  cbv -[form_lookup find_user_by_id find_user_by_name find_user_by_email
        find_owned find_activity filter_activities SEASON_DATA insert_user
        insert_activity replace_activity remove_activity validate_password
        str_eqb py_int url_int ascii_str user_id act_id act_user_id month si_name].
  destruct r, meth; destr_goal;
    first [ apply sc_same
          | eapply sc_user; cbn [session_user]; eauto
          | eapply sc_add; cbn [session_user]; eauto
          | eapply sc_edit; cbn [session_user]; eauto
          | eapply sc_del; cbn [session_user]; eauto ].
Qed.

Lemma session_user_some : forall s st u,
  session_user s st = Some u -> s = LoggedIn (user_id u).
Proof.
  intros [|uid] st u H; [discriminate |]. cbn in H.
  apply find_user_by_id_in in H as [_ ->]. reflexivity.
Qed.

Lemma find_owned_spec : forall aid uid st a,
  find_owned aid uid st = Some a ->
  In a (activities st) /\ act_id a = aid /\ act_user_id a = uid.
Proof.
  unfold find_owned. intros aid uid st a H. apply find_some in H as [Hin Heq].
  apply andb_true_iff in Heq as [E1 E2]. apply Z.eqb_eq in E1, E2. auto.
Qed.

Lemma map_act_id_replace : forall a st,
  map act_id (activities (replace_activity a st)) = map act_id (activities st).
Proof.
  intros a st. unfold replace_activity. cbn. rewrite map_map. apply map_ext.
  intros b. destruct (Z.eqb_spec (act_id b) (act_id a)); congruence.
Qed.

Lemma NoDup_map_filter : forall {A B} (f : A -> B) p l,
  NoDup (map f l) -> NoDup (map f (filter p l)).
Proof.
  intros A B f p l. induction l as [|x l IH]; cbn; intros H; [constructor |].
  inversion H as [|? ? Hn Hl]; subst. destruct (p x); cbn; [| exact (IH Hl)].
  constructor; [| exact (IH Hl)].
  intros Hin. apply Hn. apply in_map_iff in Hin as [y [Hy Hin]].
  apply filter_In in Hin as [Hin _]. rewrite <- Hy. apply in_map; exact Hin.
Qed.

Lemma NoDup_app_fresh : forall l,
  NoDup l -> NoDup (l ++ [next_rowid l]).
Proof.
  intros l H. apply NoDup_app; [exact H | constructor; [auto | constructor] |].
  intros x Hx [<- | []]. exact (next_rowid_fresh l Hx).
Qed.

(** Activity ids stay unique: no request, whatever its route, method,
    form, session and database failures, gives two rows the same id. *)
Theorem activity_ids_unique (fl : DbOp -> bool) (req : Request) (w : World)
  (Hnd : NoDup (map act_id (activities (w_store w)))) :
  NoDup (map act_id (activities (w_store (snd (run_request fl req w))))).
Proof.
  destruct (run_request_change fl req w) as
    [| name mail h _ | u m sn ty cat ti de _ | u aid a m sn ty cat ti de _ _ | u aid a _ _].
  - exact Hnd.
  - exact Hnd.
  - unfold insert_activity. cbn. rewrite map_app. cbn. apply NoDup_app_fresh; exact Hnd.
  - rewrite map_act_id_replace. exact Hnd.
  - unfold remove_activity. cbn. apply NoDup_map_filter. exact Hnd.
Qed.

Lemma activity_ids_unique_witness :
  NoDup (map act_id (activities (w_store (snd (run_request no_fail
    (mkRequest POST RAddActivity (activity_form (ascii_str "3") KAZOKU)) w_alice))))).
Proof.
  apply activity_ids_unique. cbn. constructor; [intros [] | constructor].
Defined.

(** Users are never deleted or modified: a request keeps the user table,
    or (a registration, when no user is loaded) appends one user whose id
    is new. *)
Theorem users_only_grow (fl : DbOp -> bool) (req : Request) (w : World) :
  let st := w_store w in
  let st' := w_store (snd (run_request fl req w)) in
  users st' = users st \/
  (session_user (w_session w) st = None /\
   exists u, users st' = users st ++ [u] /\ ~ In (user_id u) (map user_id (users st))).
Proof.
  cbv zeta.
  destruct (run_request_change fl req w) as
    [| name mail h Hs | u m sn ty cat ti de _ | u aid a m sn ty cat ti de _ _ | u aid a _ _];
    try (left; reflexivity).
  right. split; [exact Hs |].
  eexists. split; [reflexivity |]. apply next_rowid_fresh.
Qed.

(** The rows of a user. *)
Definition owned_by (v : Z) (st : Store) : list SeasonActivity :=
  filter (fun a => Z.eqb (act_user_id a) v) (activities st).

Lemma filter_owner_app : forall v l x,
  act_user_id x <> v ->
  filter (fun a => Z.eqb (act_user_id a) v) (l ++ [x])
  = filter (fun a => Z.eqb (act_user_id a) v) l.
Proof.
  intros v l x Hx. rewrite filter_app. cbn.
  destruct (Z.eqb_spec (act_user_id x) v); [contradiction |]. apply app_nil_r.
Qed.

Lemma filter_owner_map : forall v (g : SeasonActivity -> SeasonActivity) l,
  (forall b, In b l -> g b = b \/ (act_user_id b <> v /\ act_user_id (g b) <> v)) ->
  filter (fun a => Z.eqb (act_user_id a) v) (map g l)
  = filter (fun a => Z.eqb (act_user_id a) v) l.
Proof.
  intros v g l. induction l as [|b l IH]; cbn; intros H; [reflexivity |].
  rewrite IH by (intros c Hc; apply H; right; exact Hc).
  destruct (H b (or_introl eq_refl)) as [-> | [H1 H2]]; [reflexivity |].
  destruct (Z.eqb_spec (act_user_id b) v); [contradiction |].
  destruct (Z.eqb_spec (act_user_id (g b)) v); [contradiction | reflexivity].
Qed.

Lemma filter_owner_filter : forall v p l,
  (forall b, In b l -> p b = false -> act_user_id b <> v) ->
  filter (fun a => Z.eqb (act_user_id a) v) (filter p l)
  = filter (fun a => Z.eqb (act_user_id a) v) l.
Proof.
  intros v p l. induction l as [|b l IH]; cbn; intros H; [reflexivity |].
  rewrite <- IH by (intros c Hc; apply H; right; exact Hc).
  destruct (p b) eqn:Ep; cbn; [reflexivity |].
  destruct (Z.eqb_spec (act_user_id b) v); [| reflexivity].
  exfalso. exact (H b (or_introl eq_refl) Ep e).
Qed.

(** A request touches no other user's rows: with unique activity ids, a
    request whose session loads no user leaves every activity as it is,
    and a request of a logged-in user leaves the rows of every other
    user exactly as they were (edit and delete only reach the row the
    user owns, create adds a row of the user). *)
Theorem others_rows_untouched (fl : DbOp -> bool) (req : Request) (w : World)
  (Hnd : NoDup (map act_id (activities (w_store w)))) :
  let st := w_store w in
  let st' := w_store (snd (run_request fl req w)) in
  (session_user (w_session w) st = None -> activities st' = activities st) /\
  (forall v, (forall u, session_user (w_session w) st = Some u -> user_id u <> v) ->
     owned_by v st' = owned_by v st).
Proof.
  cbv zeta.
  destruct (run_request_change fl req w) as
    [| name mail h Hs | u m sn ty cat ti de Hs | u aid a m sn ty cat ti de Hs Ho
     | u aid a Hs Ho];
    (split; [intros Hn; try congruence; reflexivity | intros v Hv]);
    try reflexivity; specialize (Hv u Hs); unfold owned_by.
  - apply filter_owner_app. exact Hv.
  - destruct (find_owned_spec _ _ _ _ Ho) as (Ha & _ & Hown).
    unfold replace_activity. cbn. apply filter_owner_map.
    intros b Hb. cbn. destruct (Z.eqb_spec (act_id b) (act_id a)) as [E | _]; [| left; reflexivity].
    right. assert (b = a) as -> by exact (NoDup_map_same act_id _ b a Hnd Hb Ha E).
    cbn. rewrite Hown. split; exact Hv.
  - destruct (find_owned_spec _ _ _ _ Ho) as (Ha & _ & Hown).
    unfold remove_activity. cbn. apply filter_owner_filter.
    intros b Hb Hp. apply negb_false_iff, Z.eqb_eq in Hp.
    assert (b = a) as -> by exact (NoDup_map_same act_id _ b a Hnd Hb Ha Hp).
    rewrite Hown. exact Hv.
Qed.

Lemma others_rows_untouched_witness :
  owned_by 2 (w_store (snd (run_request no_fail
    (mkRequest GET (RDeleteActivity (ascii_str "1")) []) w_alice)))
  = owned_by 2 two_users.
Proof.
  apply (proj2 (others_rows_untouched no_fail
    (mkRequest GET (RDeleteActivity (ascii_str "1")) []) w_alice
    ltac:(cbn; constructor; [intros [] | constructor]))).
  intros u Hu. cbn in Hu. injection Hu as <-. discriminate.
Defined.

(** Only [GET /delete_activity/<id>] writes among the GET requests: every
    other GET, whatever its session, form and database failures, leaves
    the store unchanged. *)
Theorem get_requests_read_only (fl : DbOp -> bool) (req : Request) (w : World)
  (Hg : req_method req = GET) (Hr : forall seg, req_route req <> RDeleteActivity seg) :
  w_store (snd (run_request fl req w)) = w_store w.
Proof.
  destruct req as [meth r fm], w as [st fls ss]. cbn in Hg, Hr |- *. subst meth.
  unfold_m.
  cbv -[form_lookup find_user_by_id find_user_by_name find_user_by_email
        find_owned find_activity filter_activities SEASON_DATA insert_user
        insert_activity replace_activity remove_activity validate_password
        str_eqb py_int url_int ascii_str user_id act_id act_user_id month si_name].
  destruct r; [ .. | exfalso; exact (Hr seg eq_refl)]; destr_goal; reflexivity.
Qed.

Lemma get_requests_read_only_witness :
  w_store (snd (run_request no_fail (mkRequest GET (REditActivity (ascii_str "1")) [])
                  w_alice)) = two_users.
Proof.
  apply (get_requests_read_only no_fail (mkRequest GET (REditActivity (ascii_str "1")) [])
           w_alice eq_refl).
  intros seg H. discriminate H.
Defined.

(** ** Deleting, creating and moving a row *)

Lemma filter_keep_all : forall aid l,
  (forall b, In b l -> act_id b <> aid) ->
  filter (fun b => negb (Z.eqb (act_id b) aid)) l = l.
Proof.
  intros aid l. induction l as [|b l IH]; cbn; intros H; [reflexivity |].
  destruct (Z.eqb_spec (act_id b) aid) as [E | _]; [exfalso; exact (H b (or_introl eq_refl) E) |].
  cbn. f_equal. apply IH. intros c Hc; apply H; right; exact Hc.
Qed.

Lemma remove_one_count : forall (q : SeasonActivity -> bool) a l,
  NoDup (map act_id l) -> In a l -> q a = true ->
  List.length (filter q l)
  = S (List.length (filter q (filter (fun b => negb (Z.eqb (act_id b) (act_id a))) l))).
Proof.
  intros q a l. induction l as [|b l IH]; cbn; intros Hnd Ha Hq; [contradiction |].
  inversion Hnd as [|? ? Hn Hl]; subst.
  destruct Ha as [<- | Ha].
  - rewrite Z.eqb_refl, Hq. cbn. rewrite filter_keep_all; [reflexivity |].
    intros c Hc E. apply Hn. rewrite <- E. apply in_map; exact Hc.
  - destruct (Z.eqb_spec (act_id b) (act_id a)) as [E | _].
    + exfalso. apply Hn. rewrite E. apply in_map; exact Ha.
    + cbn. destruct (q b); cbn; rewrite (IH Hl Ha Hq); reflexivity.
Qed.

(** Deleting an owned activity (found by its id and the logged-in user)
    redirects to the month it was in, removes exactly that row, and with
    unique ids lowers that month's count of the user by one. *)
Theorem delete_owned_activity (fl : DbOp -> bool) (st : Store) (fls : list Flash)
  (uid : Z) (u : User) (seg : pystr) (aid : Z) (a : SeasonActivity)
  (Hu : find_user_by_id uid st = Some u) (Hseg : url_int seg = Some aid)
  (Ho : find_owned aid (user_id u) st = Some a)
  (Hq : fl OpQuery = false) (Hc : fl OpCommit = false)
  (Hnd : NoDup (map act_id (activities st))) :
  run_request fl (mkRequest GET (RDeleteActivity seg) []) (mkWorld st fls (LoggedIn uid))
  = (Redirect (ToMonth (month a)),
     mkWorld (remove_activity aid st) (fls ++ [(MSG_DELETED, "info"%string)]) (LoggedIn uid)) /\
  find_activity aid (remove_activity aid st) = None /\
  List.length (filter_activities (month a) (user_id u) st)
  = S (List.length (filter_activities (month a) (user_id u) (remove_activity aid st))).
Proof.
  destruct (find_owned_spec _ _ _ _ Ho) as (Ha & Hid & Hown).
  split; [| split].
  - unfold run_request, handle, login_required, current_user, bind.
    cbn [req_route req_method req_form]. rewrite Hseg.
    cbn -[find_user_by_id delete_activity]. rewrite Hu. unfold delete_activity.
    unfold try_except, bind, query, db_access, first_or_404, ret, commit, flash, bind.
    rewrite Hq; cbn -[find_owned remove_activity]. rewrite Ho.
    cbn -[remove_activity]. rewrite Hc. rewrite Hid. reflexivity.
  - unfold find_activity, remove_activity. cbn. apply find_none_forall.
    intros b Hb. apply filter_In in Hb as [_ Hb].
    destruct (Z.eqb_spec (act_id b) aid); [discriminate | reflexivity].
  - unfold filter_activities, remove_activity. cbn. subst aid.
    apply remove_one_count; [exact Hnd | exact Ha |].
    rewrite Z.eqb_refl, Hown, Z.eqb_refl. reflexivity.
Qed.

Lemma delete_owned_activity_witness :
  run_request no_fail (mkRequest GET (RDeleteActivity (ascii_str "1")) [])
    (mkWorld two_users [] (LoggedIn 2))
  = (Redirect (ToMonth 3),
     mkWorld (remove_activity 1 two_users) ([] ++ [(MSG_DELETED, "info"%string)])
       (LoggedIn 2)).
Proof.
  exact (proj1 (delete_owned_activity no_fail two_users [] 2 bob (ascii_str "1") 1
    bob_picnic eq_refl eq_refl eq_refl eq_refl eq_refl
    ltac:(cbn; constructor; [intros [] | constructor]))).
Defined.

(** Creating an activity with a month of the table appends one row, with
    a new id, to the user's rows of that month and to no other month. *)
Theorem add_activity_month_rows (fl : DbOp -> bool) (st : Store) (fls : list Flash)
  (uid : Z) (u : User) (mt : pystr) (m : Z) (info : SeasonInfo)
  (ty cat ti de : pystr)
  (Hu : find_user_by_id uid st = Some u) (Hm : py_int mt = Some m)
  (Hsd : SEASON_DATA m = Some info) (Hc : fl OpCommit = false) :
  let st' := w_store (snd (run_request fl
               (mkRequest POST RAddActivity (activity_fields mt ty cat ti de))
               (mkWorld st fls (LoggedIn uid)))) in
  let a := mkActivity (next_rowid (map act_id (activities st))) uid m (si_name info)
             ty cat ti de in
  ~ In (act_id a) (map act_id (activities st)) /\
  filter_activities m uid st' = filter_activities m uid st ++ [a] /\
  (forall m', m' <> m -> filter_activities m' uid st' = filter_activities m' uid st) /\
  (forall v, v <> uid -> filter_activities m v st' = filter_activities m v st).
Proof.
  cbv zeta. rewrite (add_activity_persists fl st fls uid u mt m info ty cat ti de Hu Hm Hsd Hc).
  cbn [snd w_store]. destruct (find_user_by_id_in _ _ _ Hu) as [_ Huid]. rewrite Huid.
  unfold filter_activities, insert_activity. cbn [activities]. rewrite !filter_app.
  split; [apply next_rowid_fresh |]. cbn. rewrite !Z.eqb_refl. split; [reflexivity |].
  split.
  - intros m' Hne. rewrite filter_app. cbn.
    destruct (Z.eqb_spec m m'); [congruence |]. apply app_nil_r.
  - intros v Hne. rewrite filter_app. cbn. destruct (Z.eqb_spec uid v); [congruence |].
    rewrite andb_false_r. apply app_nil_r.
Qed.

Lemma add_activity_month_rows_witness :
  filter_activities 6 1 (w_store (snd (run_request no_fail
    (mkRequest POST RAddActivity
       (activity_fields (ascii_str "6") HITORI (ascii_str "home") (ascii_str "Read") []))
    (mkWorld two_users [] (LoggedIn 1)))))
  = filter_activities 6 1 two_users
    ++ [mkActivity 2 1 6 NATSU HITORI (ascii_str "home") (ascii_str "Read") []].
Proof.
  exact (proj1 (proj2 (add_activity_month_rows no_fail two_users [] 1 alice
    (ascii_str "6") 6 summer_info HITORI (ascii_str "home") (ascii_str "Read") []
    eq_refl eq_refl eq_refl eq_refl))).
Defined.

Lemma find_activity_replace : forall a a' st,
  In a (activities st) -> act_id a' = act_id a ->
  find_activity (act_id a) (replace_activity a' st) = Some a'.
Proof.
  intros a a' [us l]. unfold find_activity, replace_activity. cbn.
  induction l as [|b l IH]; cbn; intros Ha Hid; [contradiction |].
  destruct (Z.eqb_spec (act_id b) (act_id a')) as [E | Ne].
  - cbn. rewrite Hid, Z.eqb_refl. reflexivity.
  - cbn. destruct (Z.eqb_spec (act_id b) (act_id a)) as [E | _]; [congruence |].
    destruct Ha as [<- | Ha]; [congruence | exact (IH Ha Hid)].
Qed.

(** Updating an owned activity with a month of the table (and a database
    that refuses nothing in between) redirects to the new month; with
    unique ids the updated row is the only row with that id, it is listed
    under the new month, and when the month changed the old month no
    longer lists a row with that id. *)
Theorem edit_owned_moves (fl : DbOp -> bool) (st : Store) (fls : list Flash)
  (uid : Z) (u : User) (seg : pystr) (aid : Z) (a : SeasonActivity)
  (mt : pystr) (m : Z) (info : SeasonInfo) (ty cat ti de : pystr)
  (Hu : find_user_by_id uid st = Some u) (Hseg : url_int seg = Some aid)
  (Ho : find_owned aid (user_id u) st = Some a)
  (Hm : py_int mt = Some m) (Hsd : SEASON_DATA m = Some info)
  (Hq : fl OpQuery = false) (Hc : fl OpCommit = false) (Hr : fl OpReload = false)
  (Hnd : NoDup (map act_id (activities st))) :
  let a' := mkActivity aid (act_user_id a) m (si_name info) ty cat ti de in
  let st' := replace_activity a' st in
  run_request fl (mkRequest POST (REditActivity seg) (activity_fields mt ty cat ti de))
    (mkWorld st fls (LoggedIn uid))
  = (Redirect (ToMonth m),
     mkWorld st' (fls ++ [(MSG_UPDATED, "success"%string)]) (LoggedIn uid)) /\
  (forall b, In b (activities st') -> act_id b = aid -> b = a') /\
  In a' (filter_activities m (user_id u) st') /\
  (month a <> m -> forall b, In b (filter_activities (month a) (user_id u) st') ->
     act_id b <> aid).
Proof.
  cbv zeta.
  destruct (find_owned_spec _ _ _ _ Ho) as (Ha & Hid & Hown). subst aid.
  assert (Hb : forall b, In b (activities (replace_activity
             (mkActivity (act_id a) (act_user_id a) m (si_name info) ty cat ti de) st)) ->
             act_id b = act_id a ->
             b = mkActivity (act_id a) (act_user_id a) m (si_name info) ty cat ti de).
  { intros b Hin E. unfold replace_activity in Hin. cbn in Hin.
    apply in_map_iff in Hin as [b0 [<- Hb0]].
    destruct (Z.eqb_spec (act_id b0) (act_id a)) as [_ | Ne]; [reflexivity |].
    contradiction. }
  split; [| split; [exact Hb | split]].
  - unfold run_request, handle, login_required, current_user, bind.
    cbn [req_route req_method req_form]. rewrite Hseg.
    cbn -[find_user_by_id edit_activity]. rewrite Hu. unfold edit_activity.
    destruct (form_get_activity_fields mt ty cat ti de) as (E1 & E2 & E3 & E4 & E5).
    rewrite E1, E2, E3, E4, E5.
    unfold try_except, bind, query, db_access, first_or_404, ret, int_of,
      season_lookup, commit, flash, reload_month, db_access, bind.
    rewrite Hq; cbn -[find_owned py_int SEASON_DATA replace_activity find_activity].
    rewrite Ho; cbn -[py_int SEASON_DATA replace_activity find_activity].
    rewrite Hm; cbn -[SEASON_DATA replace_activity find_activity].
    rewrite Hsd; cbn -[replace_activity find_activity]. rewrite Hc, Hr.
    cbn [w_store w_flashes w_session].
    rewrite (find_activity_replace a
      (mkActivity (act_id a) (act_user_id a) m (si_name info) ty cat ti de) st Ha eq_refl).
    reflexivity.
  - unfold filter_activities. apply filter_In. split.
    + unfold replace_activity. cbn. apply in_map_iff. exists a.
      split; [rewrite Z.eqb_refl; reflexivity | exact Ha].
    + cbn. rewrite Hown, !Z.eqb_refl. reflexivity.
  - intros Hne b Hin E. unfold filter_activities in Hin. apply filter_In in Hin as [Hin Hf].
    rewrite (Hb b Hin E) in Hf. cbn in Hf.
    destruct (Z.eqb_spec m (month a)); [congruence | discriminate].
Qed.

Lemma edit_owned_moves_witness :
  run_request no_fail
    (mkRequest POST (REditActivity (ascii_str "1"))
       (activity_fields (ascii_str "9") KAZOKU (ascii_str "outing") (ascii_str "Picnic") []))
    (mkWorld two_users [] (LoggedIn 2))
  = (Redirect (ToMonth 9),
     mkWorld (replace_activity (mkActivity 1 2 9 AKI KAZOKU (ascii_str "outing")
                                  (ascii_str "Picnic") []) two_users)
       ([] ++ [(MSG_UPDATED, "success"%string)]) (LoggedIn 2)).
Proof.
  exact (proj1 (edit_owned_moves no_fail two_users [] 2 bob (ascii_str "1") 1 bob_picnic
    (ascii_str "9") 9 autumn_info KAZOKU (ascii_str "outing")
    (ascii_str "Picnic") [] eq_refl eq_refl eq_refl eq_refl eq_refl eq_refl eq_refl eq_refl
    ltac:(cbn; constructor; [intros [] | constructor]))).
Defined.

(** ** The dashboard counts *)

Lemma month_sum_cons : forall (ms : list Z) (P : Z -> SeasonActivity -> bool) a l,
  fold_right (fun m n => (List.length (filter (P m) (a :: l)) + n)%nat) 0%nat ms
  = (fold_right (fun m n => ((if P m a then 1 else 0) + n)%nat) 0%nat ms
     + fold_right (fun m n => (List.length (filter (P m) l) + n)%nat) 0%nat ms)%nat.
Proof.
  intros ms P a l. induction ms as [|m ms IH]; cbn [fold_right]; [reflexivity |].
  rewrite IH. cbn [filter]. destruct (P m a); cbn [List.length]; lia.
Qed.

Lemma months_sum_owned : forall v l,
  (forall a, In a l -> 1 <= month a <= 12) ->
  fold_right (fun m n =>
      (List.length (filter (fun a => Z.eqb (month a) m && Z.eqb (act_user_id a) v) l) + n)%nat)
    0%nat months_1_12
  = List.length (filter (fun a => Z.eqb (act_user_id a) v) l).
Proof.
  intros v l. induction l as [|a l IH]; intros H; [reflexivity |].
  pose proof (month_sum_cons months_1_12
                (fun m a => Z.eqb (month a) m && Z.eqb (act_user_id a) v) a l) as E.
  cbn beta in E. rewrite E. clear E.
  rewrite IH by (intros b Hb; apply H; right; exact Hb).
  assert (Hm : 1 <= month a <= 12) by (apply H; left; reflexivity).
  cbn [filter].
  assert (month a = 1 \/ month a = 2 \/ month a = 3 \/ month a = 4 \/ month a = 5 \/
          month a = 6 \/ month a = 7 \/ month a = 8 \/ month a = 9 \/ month a = 10 \/
          month a = 11 \/ month a = 12) as Hc by lia.
  repeat destruct Hc as [Hc | Hc]; rewrite Hc; destruct (Z.eqb (act_user_id a) v);
    reflexivity.
Qed.

(** The twelve counts of the dashboard are those of the months 1 to 12 in
    order, and when every row has a month of the table (the activity
    invariant) they add up to the number of the user's activities. *)
Theorem dashboard_total (fl : DbOp -> bool) (st : Store) (fls : list Flash)
  (uid : Z) (u : User) (Hu : find_user_by_id uid st = Some u) (Hq : fl OpQuery = false)
  (Hmonths : forall a, In a (activities st) -> 1 <= month a <= 12) :
  exists counts,
    run_request fl (mkRequest GET RIndex []) (mkWorld st fls (LoggedIn uid))
    = (RenderIndex counts, mkWorld st fls (LoggedIn uid)) /\
    map fst counts = months_1_12 /\
    fold_right (fun p n => (snd p + n)%nat) 0%nat counts = List.length (owned_by uid st).
Proof.
  rewrite (index_counts fl st fls uid u Hu Hq). eexists. split; [reflexivity |].
  destruct (find_user_by_id_in _ _ _ Hu) as [_ ->].
  split; [rewrite map_map; apply map_id |].
  unfold owned_by. rewrite <- (months_sum_owned uid (activities st) Hmonths).
  unfold filter_activities. generalize months_1_12. intros ms.
  induction ms as [|m ms IH]; cbn; [reflexivity | rewrite IH; reflexivity].
Qed.

Lemma dashboard_total_witness :
  exists counts,
    run_request no_fail (mkRequest GET RIndex []) (mkWorld two_users [] (LoggedIn 2))
    = (RenderIndex counts, mkWorld two_users [] (LoggedIn 2)) /\
    map fst counts = months_1_12 /\
    fold_right (fun p n => (snd p + n)%nat) 0%nat counts = List.length (owned_by 2 two_users).
Proof.
  apply (dashboard_total no_fail two_users [] 2 bob eq_refl eq_refl).
  intros a [<- | []]. cbn. lia.
Defined.

(** ** URL rules and methods *)



(** A POST to a rule that only allows GET (home, logout, and month detail
    and delete with a numeral segment) is answered 405 before any view or
    the login check runs, for any session, and changes nothing. *)
Theorem post_to_get_only_rule (fl : DbOp -> bool) (w : World) (fm : Form)
  (seg : pystr) (n : Z) (Hseg : url_int seg = Some n) :
  run_request fl (mkRequest POST RIndex fm) w = (MethodNotAllowed, w) /\
  run_request fl (mkRequest POST RLogout fm) w = (MethodNotAllowed, w) /\
  run_request fl (mkRequest POST (RMonth seg) fm) w = (MethodNotAllowed, w) /\
  run_request fl (mkRequest POST (RDeleteActivity seg) fm) w = (MethodNotAllowed, w).
Proof.
  unfold run_request, handle, ret; cbn [req_route req_method req_form].
  rewrite Hseg. repeat split.
Qed.

Lemma post_to_get_only_rule_witness :
  run_request no_fail (mkRequest POST (RDeleteActivity (ascii_str "1")) []) w_alice
  = (MethodNotAllowed, w_alice).
Proof.
  exact (proj2 (proj2 (proj2
    (post_to_get_only_rule no_fail w_alice [] (ascii_str "1") 1 eq_refl)))).
Defined.

(** ** The month field of the activity forms *)



(** ** [int()] and the URL converter *)

Lemma digits_value_digits : forall s acc z,
  digits_value acc s = Some z -> forall c, In c s -> is_digit c = true.
Proof.
  induction s as [|c s IH]; cbn; intros acc z H d Hd; [contradiction |].
  destruct (is_digit c) eqn:Ec; [| discriminate].
  destruct Hd as [<- | Hd]; [exact Ec | exact (IH _ _ H d Hd)].
Qed.

Lemma digit_not_space : forall c, is_digit c = true -> is_space c = false.
Proof.
  unfold is_digit, is_space. intros c H. apply andb_true_iff in H as [H1 H2].
  apply Z.leb_le in H1. apply Z.leb_le in H2.
  destruct (Z.eqb_spec c 32); [lia |]. destruct (Z.leb_spec 9 c), (Z.leb_spec c 13); cbn; lia.
Qed.

Lemma drop_space_spaces : forall ws t,
  forallb is_space ws = true -> drop_space (ws ++ t) = drop_space t.
Proof.
  induction ws as [|c ws IH]; cbn; intros t H; [reflexivity |].
  apply andb_true_iff in H as [Hc H]. rewrite Hc. exact (IH t H).
Qed.

Lemma drop_space_nonspace : forall t,
  (forall c, In c t -> is_space c = false) -> drop_space t = t.
Proof.
  intros [|c t] H; cbn; [reflexivity |]. rewrite (H c (or_introl eq_refl)). reflexivity.
Qed.

Lemma forallb_rev_space : forall ws, forallb is_space ws = true -> forallb is_space (rev ws) = true.
Proof.
  intros ws H. apply forallb_forall. intros c Hc. apply in_rev in Hc.
  rewrite forallb_forall in H. exact (H c Hc).
Qed.

Lemma strip_padded : forall ws1 t ws2,
  forallb is_space ws1 = true -> forallb is_space ws2 = true ->
  (forall c, In c t -> is_space c = false) ->
  strip (ws1 ++ t ++ ws2) = t.
Proof.
  intros ws1 t ws2 H1 H2 Ht. unfold strip. rewrite drop_space_spaces by exact H1.
  destruct t as [|c r].
  - cbn. rewrite <- (app_nil_r ws2), drop_space_spaces by exact H2. reflexivity.
  - cbn [app drop_space]. rewrite (Ht c (or_introl eq_refl)).
    change (c :: r ++ ws2) with ((c :: r) ++ ws2).
    rewrite rev_app_distr, drop_space_spaces by (apply forallb_rev_space; exact H2).
    rewrite drop_space_nonspace; [apply rev_involutive |].
    intros d Hd. apply in_rev in Hd. exact (Ht d Hd).
Qed.

(** What the URL converter accepts, [int()] reads the same way, also with
    surrounding whitespace and with a sign, which the converter refuses:
    the two parsers agree on unsigned numerals and [int()] accepts more. *)
Theorem int_accepts_url_numerals (s : pystr) (n : Z) (Hs : url_int s = Some n)
  (ws1 ws2 : pystr) (H1 : forallb is_space ws1 = true) (H2 : forallb is_space ws2 = true) :
  py_int (ws1 ++ s ++ ws2) = Some n /\
  py_int (ws1 ++ 43 :: s ++ ws2) = Some n /\
  py_int (ws1 ++ 45 :: s ++ ws2) = Some (- n) /\
  url_int (43 :: s) = None /\ url_int (45 :: s) = None.
Proof.
  cut (py_int (ws1 ++ s ++ ws2) = Some n /\
       py_int (ws1 ++ 43 :: s ++ ws2) = Some n /\
       py_int (ws1 ++ 45 :: s ++ ws2) = Some (- n)).
  { intros (A & B & C). repeat split; first [assumption | reflexivity]. }
  assert (Hd : forall c, In c s -> is_digit c = true).
  { unfold url_int, unsigned_numeral in Hs. destruct s as [|c0 r0]; [discriminate |].
    exact (digits_value_digits _ 0 n Hs). }
  assert (Hsp : forall c, In c s -> is_space c = false)
    by (intros c Hc; apply digit_not_space, Hd, Hc).
  unfold py_int. split; [| split].
  - rewrite strip_padded by assumption.
    destruct s as [|c r]; [discriminate |].
    assert (Hc := Hd c (or_introl eq_refl)). unfold is_digit in Hc.
    apply andb_true_iff in Hc as [Hc _]. apply Z.leb_le in Hc.
    destruct (Z.eqb_spec c 45); [lia |]. destruct (Z.eqb_spec c 43); [lia |]. exact Hs.
  - change (43 :: s ++ ws2) with ((43 :: s) ++ ws2).
    rewrite strip_padded; [exact Hs | assumption | assumption |].
    intros c [<- | Hc]; [reflexivity | exact (Hsp c Hc)].
  - change (45 :: s ++ ws2) with ((45 :: s) ++ ws2).
    rewrite strip_padded; [| assumption | assumption |].
    + cbn -[unsigned_numeral]. unfold url_int in Hs. rewrite Hs. reflexivity.
    + intros c [<- | Hc]; [reflexivity | exact (Hsp c Hc)].
Qed.

Lemma int_accepts_url_numerals_witness :
  py_int ([32] ++ ascii_str "12" ++ [10]) = Some 12 /\
  py_int ([32] ++ 43 :: ascii_str "12" ++ [10]) = Some 12 /\
  py_int ([32] ++ 45 :: ascii_str "12" ++ [10]) = Some (- 12) /\
  url_int (43 :: ascii_str "12") = None /\ url_int (45 :: ascii_str "12") = None.
Proof. exact (int_accepts_url_numerals (ascii_str "12") 12 eq_refl [32] [10] eq_refl eq_refl). Defined.

(** ** Database failures in login and registration *)

(** When the database refuses the user lookup, an anonymous login POST
    gets the login-error page and a registration POST the
    registration-error page, both with status 500 and nothing changed;
    when only the commit of a new user fails, the registration-error page
    is shown, no user is added and nobody is logged in. *)
Theorem login_register_db_failure (fl : DbOp -> bool) (st : Store) (fls : list Flash)
  (name mail pw confirm : pystr) :
  (fl OpQuery = true ->
     run_request fl (mkRequest POST RLogin (login_form name pw)) (mkWorld st fls Anonymous)
     = (Body MSG_LOGIN_ERROR 500, mkWorld st fls Anonymous) /\
     run_request fl (register_req name mail pw confirm) (mkWorld st fls Anonymous)
     = (Body MSG_REGISTER_ERROR 500, mkWorld st fls Anonymous)) /\
  (fl OpQuery = false -> fl OpCommit = true ->
     find_user_by_name name st = None -> find_user_by_email mail st = None ->
     fst (validate_password pw) = true ->
     run_request fl (register_req name mail pw pw) (mkWorld st fls Anonymous)
     = (Body MSG_REGISTER_ERROR 500, mkWorld st fls Anonymous)).
Proof.
  destruct (form_get_login_form name pw) as [L1 L2].
  split.
  - intros Hq. split.
    + unfold run_request, handle, login; cbn [req_route req_method req_form].
      rewrite L1, L2. unfold_m. cbv -[find_user_by_name]. rewrite Hq. reflexivity.
    + unfold register_req, run_request, handle, register; cbn [req_route req_method req_form].
      destruct (form_get_register_form name mail pw confirm) as (E1 & E2 & E3 & E4).
      rewrite E1, E2, E3, E4. unfold_m. cbv -[find_user_by_name]. rewrite Hq. reflexivity.
  - intros Hq Hc Hn Hm Hv.
    destruct (validate_password pw) as [b msg] eqn:Ev. cbn in Hv. subst b.
    unfold register_req, run_request, handle, register; cbn [req_route req_method req_form].
    destruct (form_get_register_form name mail pw pw) as (E1 & E2 & E3 & E4).
    rewrite E1, E2, E3, E4. unfold_m.
    cbv -[find_user_by_name find_user_by_email validate_password str_eqb insert_user].
    rewrite Hq, Hn, Hm, Ev, str_eqb_refl, Hc. reflexivity.
Qed.

Lemma login_register_db_failure_witness :
  run_request (fun op => match op with OpCommit => true | _ => false end)
    (register_req (ascii_str "carol") (ascii_str "c@x.com") (ascii_str "carol123")
       (ascii_str "carol123")) (mkWorld two_users [] Anonymous)
  = (Body MSG_REGISTER_ERROR 500, mkWorld two_users [] Anonymous).
Proof.
  exact (proj2 (login_register_db_failure
    (fun op => match op with OpCommit => true | _ => false end) two_users []
    (ascii_str "carol") (ascii_str "c@x.com") (ascii_str "carol123") (ascii_str "carol123"))
    eq_refl eq_refl eq_refl eq_refl eq_refl).
Defined.
